(** * The MQTT-to-MySQL relay of [mqtt_subscriber_app/subscriber_main.py]

    A shallow embedding of the subscriber: the module-level configuration,
    [setup_db_pool], [insert_data], [on_connect], [on_message] and the main
    block, written in a state-and-exception monad over an explicit world
    (configuration globals, the connection pool, the table, the log).

    The broker client (paho) and the database connector (mysql.connector) are
    not part of the program.  Their behaviour is an explicit environment: for
    every call into the connector the environment says whether the call
    returns or raises, and with which exception.  Theorems quantify over all
    environments. *)

From Stdlib Require Import List String Ascii Bool Arith ZArith NArith Lia.
From Stdlib.Strings Require Import Byte.
Import ListNotations.

Set Implicit Arguments.

(** ** Python values: [str] and [bytes] *)

Module Py.

(** A Python [str] is a sequence of Unicode code points. *)
Definition str := list N.

(** A Python [bytes] object. *)
Definition bytes := list byte.

(** An ASCII literal of the source, read as a [str]. *)
Fixpoint lit (s : string) : str :=
  match s with
  | EmptyString => []
  | String c s' => N_of_ascii c :: lit s'
  end.

(** An ASCII literal read as [bytes] (what a publisher sends for ASCII text). *)
Definition blit (s : string) : bytes := list_byte_of_string s.

(** [len(s)] *)
Definition len (s : str) : nat := List.length s.

(** Truthiness of a [str]: [not s] holds exactly for the empty string. *)
Definition not_ (s : str) : bool :=
  match s with [] => true | _ :: _ => false end.

(** [s.startswith(p)] *)
Fixpoint startswith (s p : str) {struct p} : bool :=
  match p with
  | [] => true
  | c :: p' =>
      match s with
      | [] => false
      | d :: s' => N.eqb c d && startswith s' p'
      end
  end.

(** [s[n:]] for [0 <= n] *)
Definition slice_from (n : nat) (s : str) : str := skipn n s.

(** [needle in hay] on strings: substring search. *)
Fixpoint contains (needle hay : str) : bool :=
  startswith hay needle ||
  match hay with
  | [] => false
  | _ :: hay' => contains needle hay'
  end.

(** *** [bytes.decode('utf-8')], strict error handling

    [None] stands for [UnicodeDecodeError].  The decoder accepts exactly the
    well-formed sequences: no overlong forms, no surrogates, nothing above
    U+10FFFF, no truncated sequence. *)

Definition is_cont (x : N) : bool := (128 <=? x)%N && (x <=? 191)%N.

Definition in_range (lo hi x : N) : bool := (lo <=? x)%N && (x <=? hi)%N.

(** Admissible second byte after a three-byte lead. *)
Definition second_of_3 (x0 x1 : N) : bool :=
  if (x0 =? 224)%N then in_range 160 191 x1
  else if (x0 =? 237)%N then in_range 128 159 x1
  else is_cont x1.

(** Admissible second byte after a four-byte lead. *)
Definition second_of_4 (x0 x1 : N) : bool :=
  if (x0 =? 240)%N then in_range 144 191 x1
  else if (x0 =? 244)%N then in_range 128 143 x1
  else is_cont x1.

Fixpoint decode_utf8 (bs : bytes) : option str :=
  match bs with
  | [] => Some []
  | b0 :: r0 =>
      let x0 := Byte.to_N b0 in
      if (x0 <? 128)%N then option_map (cons x0) (decode_utf8 r0)
      else if in_range 194 223 x0 then
        match r0 with
        | b1 :: r1 =>
            let x1 := Byte.to_N b1 in
            if is_cont x1
            then option_map (cons ((x0 - 192) * 64 + (x1 - 128))%N)
                            (decode_utf8 r1)
            else None
        | _ => None
        end
      else if in_range 224 239 x0 then
        match r0 with
        | b1 :: b2 :: r2 =>
            let x1 := Byte.to_N b1 in
            let x2 := Byte.to_N b2 in
            if second_of_3 x0 x1 && is_cont x2
            then option_map
                   (cons ((x0 - 224) * 4096 + (x1 - 128) * 64 + (x2 - 128))%N)
                   (decode_utf8 r2)
            else None
        | _ => None
        end
      else if in_range 240 244 x0 then
        match r0 with
        | b1 :: b2 :: b3 :: r3 =>
            let x1 := Byte.to_N b1 in
            let x2 := Byte.to_N b2 in
            let x3 := Byte.to_N b3 in
            if second_of_4 x0 x1 && is_cont x2 && is_cont x3
            then option_map
                   (cons ((x0 - 240) * 262144 + (x1 - 128) * 4096
                          + (x2 - 128) * 64 + (x3 - 128))%N)
                   (decode_utf8 r3)
            else None
        | _ => None
        end
      else None
  end.

End Py.

(** ** Exceptions, results and the monad of the program *)

Inductive exn_class :=
| AttributeError
| NameError
| UnboundLocalError
| UnicodeDecodeError
| ValueError
| PoolError
| DatabaseError
| ConnectionError.

(** An exception object: its class (always a subclass of [Exception]) and
    [str(e)]. *)
Record exn := mk_exn { exn_cls : exn_class; exn_str : Py.str }.

(** How a piece of code ends: it returns, an exception leaves it, or
    [exit(code)] was called ([SystemExit] is not an [Exception], so no
    [except Exception] clause catches it). *)
Inductive result (A : Type) :=
| Returned (a : A)
| Raised (e : exn)
| SystemExit (code : Z).

Arguments Returned {A} a.
Arguments Raised {A} e.
Arguments SystemExit {A} code.

(** State persists across a raise: the state is returned next to the result. *)
Definition M (S A : Type) : Type := S -> result A * S.

Definition ret {S A} (a : A) : M S A := fun s => (Returned a, s).

Definition bind {S A B} (m : M S A) (k : A -> M S B) : M S B :=
  fun s =>
    match m s with
    | (Returned a, s') => k a s'
    | (Raised e, s') => (Raised e, s')
    | (SystemExit c, s') => (SystemExit c, s')
    end.

Definition raise {S A} (e : exn) : M S A := fun s => (Raised e, s).

Definition sys_exit {S A} (code : Z) : M S A := fun s => (SystemExit code, s).

Definition modify {S} (f : S -> S) : M S unit := fun s => (Returned tt, f s).

Definition gets {S A} (f : S -> A) : M S A := fun s => (Returned (f s), s).

(** [try: m  except Exception as e: h e] *)
Definition try_except {S A} (m : M S A) (h : exn -> M S A) : M S A :=
  fun s =>
    match m s with
    | (Raised e, s') => h e s'
    | r => r
    end.

(** [try: m  finally: f].  The [finally] block always runs; when it ends
    normally the pending result of [m] is resumed, otherwise its own
    exception (or exit) replaces it. *)
Definition try_finally {S A} (m : M S A) (f : M S unit) : M S A :=
  fun s =>
    match m s with
    | (r, s') =>
        match f s' with
        | (Returned _, s'') => (r, s'')
        | (Raised e, s'') => (Raised e, s'')
        | (SystemExit c, s'') => (SystemExit c, s'')
        end
    end.

Declare Scope py_scope.
Delimit Scope py_scope with py.
Notation "x <- m ;; k" := (bind m (fun x => k))
  (at level 61, m at next level, right associativity) : py_scope.
Notation "m ;; k" := (bind m (fun _ => k))
  (at level 61, right associativity) : py_scope.
Open Scope py_scope.

(** ** Module-level constants and configuration *)

Record config := mk_config {
  MQTT_HOST : Py.str;
  MQTT_PORT : Z;
  MQTT_TOPIC : Py.str;
  DB_HOST : Py.str;
  DB_NAME : Py.str;
  DB_USER : Py.str;
  DB_PASS : Py.str
}.

Definition TARGET_DB_TABLE : Py.str := Py.lit "mqtt_data_log".
Definition TOPIC_PREFIX : Py.str := Py.lit "roverCommsLog/".

(** ** The world *)

(** A row of [mqtt_data_log]; [received_at] is the server's [NOW()]. *)
Record row := mk_row {
  device_id : Py.str;
  value_payload : Py.str;
  mqtt_topic : Py.str;
  received_at : N
}.

Inductive level := DEBUG | INFO | WARNING | ERROR.

(** The records handed to [logger], one constructor per format string. *)
Inductive log_msg :=
| LogServiceStarted
| LogPoolSetup (user host name : Py.str)
| LogPoolEstablished
| LogPoolError (e : exn)
| LogInserted (dev val top : Py.str)
| LogSchemaMissing
| LogInsertionError (e : exn)
| LogConnected
| LogSubscribed (filter : Py.str)
| LogConnectFailed (rc : Z)
| LogSkipNonMatching (top : Py.str)
| LogSkipEmpty (top : Py.str)
| LogProcessingError (top : Py.str) (e : exn)
| LogAwaiting
| LogMqttFailed (e : exn).

(** Calls made on the broker client. *)
Inductive client_call :=
| ClientNew
| ClientConnect (host : Py.str) (port : Z) (keepalive : Z)
| ClientSubscribe (filter : Py.str)
| ClientLoopForever.

(** [cfg]: the configuration globals, [None] while the module-level
    assignments have not run.  [DB_POOL]: [None] until the pool is
    built, then the number of idle connections in it.  [mqtt_data_log]: the
    committed rows.  [logged]: every call on [logger], in order.  [inserts]:
    the arguments of every call of [insert_data], in order (instrumentation,
    not program state).  [client]: the calls made on the broker client. *)
Record world := mk_world {
  cfg : option config;
  DB_POOL : option nat;
  mqtt_data_log : list row;
  logged : list (level * log_msg);
  inserts : list (Py.str * Py.str * Py.str);
  client : list client_call
}.

Definition set_cfg (c : option config) (w : world) : world :=
  mk_world c (DB_POOL w) (mqtt_data_log w) (logged w) (inserts w) (client w).
Definition set_DB_POOL (p : option nat) (w : world) : world :=
  mk_world (cfg w) p (mqtt_data_log w) (logged w) (inserts w) (client w).
Definition set_mqtt_data_log (t : list row) (w : world) : world :=
  mk_world (cfg w) (DB_POOL w) t (logged w) (inserts w) (client w).
Definition set_logged (l : list (level * log_msg)) (w : world) : world :=
  mk_world (cfg w) (DB_POOL w) (mqtt_data_log w) l (inserts w) (client w).
Definition set_inserts (i : list (Py.str * Py.str * Py.str)) (w : world)
  : world :=
  mk_world (cfg w) (DB_POOL w) (mqtt_data_log w) (logged w) i (client w).
Definition set_client (c : list client_call) (w : world) : world :=
  mk_world (cfg w) (DB_POOL w) (mqtt_data_log w) (logged w) (inserts w) c.

(** [logging.basicConfig(level=logging.INFO)]: what reaches the console. *)
Definition displayed (l : level) : bool :=
  match l with DEBUG => false | _ => true end.

Definition console (w : world) : list (level * log_msg) :=
  filter (fun r => displayed (fst r)) (logged w).

Definition logger (l : level) (m : log_msg) : M world unit :=
  modify (fun w => set_logged (logged w ++ [(l, m)]) w).

(** ** The database connector as an environment *)

(** What the connector does during one call of [insert_data]: for each call
    into it, [None] when the call returns and [Some e] when it raises [e];
    what [is_connected()] answers; the server's clock. *)
Record db_env := mk_db_env {
  get_connection_r : option exn;
  cursor_r : option exn;
  execute_r : option exn;
  commit_r : option exn;
  rollback_r : option exn;
  is_connected_r : bool;
  cursor_close_r : option exn;
  conn_close_r : option exn;
  now : N
}.

(** A pooled connection checked out of the pool, with the rows written in its
    open transaction. *)
Record connection := mk_connection { pending : list row }.

(** The local variables of [insert_data].  [conn] starts as [None];
    [cursor] is unbound ([None] here) until the assignment runs. *)
Record frame := mk_frame {
  conn : option connection;
  cursor : option unit
}.

Definition locals : Type := world * frame.

Definition lift {A} (m : M world A) : M locals A :=
  fun s =>
    match m (fst s) with
    | (r, w') => (r, (w', snd s))
    end.

Definition set_conn (c : option connection) : M locals unit :=
  modify (fun s => (fst s, mk_frame c (cursor (snd s)))).

Definition set_cursor (c : option unit) : M locals unit :=
  modify (fun s => (fst s, mk_frame (conn (snd s)) c)).

(** Running a function body with its own local variables. *)
Definition call {A} (init : frame) (body : M locals A) : M world A :=
  fun w =>
    match body (w, init) with
    | (r, s') => (r, fst s')
    end.

Definition name_not_defined : exn :=
  mk_exn NameError (Py.lit "name is not defined").

(** [None.attr]: the [AttributeError] of an attribute read on [None]. *)
Definition no_attribute (attr : string) : exn :=
  mk_exn AttributeError
    (Py.lit "'NoneType' object has no attribute '" ++ Py.lit attr
       ++ Py.lit "'").

(** [DB_POOL.get_connection] while [DB_POOL] is [None]. *)
Definition none_has_no_attribute : exn := no_attribute "get_connection".

Definition pool_exhausted : exn :=
  mk_exn PoolError (Py.lit "Failed getting connection; pool exhausted").

Definition cursor_unbound : exn :=
  mk_exn UnboundLocalError
    (Py.lit "cannot access local variable 'cursor' where it is not associated with a value").

(** The [UnicodeDecodeError] of a payload that is not UTF-8.  [exn_str] holds
    the leading part of its message; the byte, position and reason that
    follow in Python's text are not modelled. *)
Definition invalid_utf8 : exn :=
  mk_exn UnicodeDecodeError (Py.lit "'utf-8' codec can't decode byte").

(** Reading the configuration globals. *)
Definition globals : M world config :=
  fun w =>
    match cfg w with
    | Some c => (Returned c, w)
    | None => (Raised name_not_defined, w)
    end.

(** An external call whose outcome the environment fixes. *)
Definition outcome {S} (r : option exn) : M S unit :=
  match r with
  | None => ret tt
  | Some e => raise e
  end.

(** [DB_POOL.get_connection()].  [DB_POOL] may still be [None]; an empty
    pool raises [PoolError]; a connection that cannot be handed out stays in
    the pool. *)
Definition get_connection (env : db_env) : M world connection :=
  fun w =>
    match DB_POOL w with
    | None => (Raised none_has_no_attribute, w)
    | Some O => (Raised pool_exhausted, w)
    | Some (S n) =>
        match get_connection_r env with
        | Some e => (Raised e, w)
        | None => (Returned (mk_connection []), set_DB_POOL (Some n) w)
        end
    end.

(** Reading the local [conn] to call its method [attr]. *)
Definition the_conn (attr : string) : M locals connection :=
  fun s =>
    match conn (snd s) with
    | Some c => (Returned c, s)
    | None => (Raised (no_attribute attr), s)
    end.

(** Reading the local [cursor]. *)
Definition the_cursor : M locals unit :=
  fun s =>
    match cursor (snd s) with
    | Some c => (Returned c, s)
    | None => (Raised cursor_unbound, s)
    end.

(** [conn.cursor()] *)
Definition conn_cursor (env : db_env) : M locals unit :=
  _ <- the_conn "cursor" ;; outcome (cursor_r env).

(** [cursor.execute(sql, (device_id, value, full_topic))] with the INSERT
    statement of the source: one row joins the open transaction. *)
Definition cursor_execute (env : db_env) (d v t : Py.str) : M locals unit :=
  _ <- the_cursor ;;
  c <- the_conn "cursor" ;;
  outcome (execute_r env) ;;
  set_conn (Some (mk_connection (pending c ++ [mk_row d v t (now env)]))).

(** [conn.commit()] *)
Definition conn_commit (env : db_env) : M locals unit :=
  c <- the_conn "commit" ;;
  outcome (commit_r env) ;;
  lift (modify (fun w => set_mqtt_data_log (mqtt_data_log w ++ pending c) w)) ;;
  set_conn (Some (mk_connection [])).

(** [conn.rollback()] *)
Definition conn_rollback (env : db_env) : M locals unit :=
  _ <- the_conn "rollback" ;;
  outcome (rollback_r env) ;;
  set_conn (Some (mk_connection [])).

(** [conn.is_connected()] *)
Definition conn_is_connected (env : db_env) : M locals bool :=
  _ <- the_conn "is_connected" ;; ret (is_connected_r env).

(** [cursor.close()] *)
Definition cursor_close (env : db_env) : M locals unit :=
  _ <- the_cursor ;; outcome (cursor_close_r env).

(** [conn.close()] on a pooled connection: the connection goes back to the
    pool and an open transaction is abandoned, also when the call then
    raises (the pooled connection is queued again before the exception
    leaves [close]). *)
Definition conn_close (env : db_env) : M locals unit :=
  _ <- the_conn "close" ;;
  lift (modify (fun w => set_DB_POOL (option_map S (DB_POOL w)) w)) ;;
  set_conn (Some (mk_connection [])) ;;
  outcome (conn_close_r env).

(** ** Database functions *)

(** The text searched for in [str(e)] to recognise a missing table. *)
Definition table_missing_text : Py.str :=
  Py.lit "'" ++ TARGET_DB_TABLE ++ Py.lit "' doesn't exist".

Definition is_schema_error (error_message : Py.str) : bool :=
  Py.contains table_missing_text error_message
  || Py.contains (Py.lit "Unknown column") error_message.

Definition insert_try (env : db_env) (device_id value full_topic : Py.str)
  : M locals unit :=
  c <- lift (get_connection env) ;;
  set_conn (Some c) ;;
  cu <- conn_cursor env ;;
  set_cursor (Some cu) ;;
  cursor_execute env device_id value full_topic ;;
  conn_commit env ;;
  lift (logger DEBUG (LogInserted device_id value full_topic)).

Definition insert_except (env : db_env) (e : exn) : M locals unit :=
  c <- gets (fun s => conn (snd s)) ;;
  match c with
  | Some _ => conn_rollback env
  | None => ret tt
  end ;;
  let error_message := exn_str e in
  if is_schema_error error_message
  then lift (logger ERROR LogSchemaMissing)
  else lift (logger ERROR (LogInsertionError e)).

Definition insert_finally (env : db_env) : M locals unit :=
  c <- gets (fun s => conn (snd s)) ;;
  connected <- match c with
               | Some _ => conn_is_connected env
               | None => ret false
               end ;;
  if connected
  then cursor_close env ;; conn_close env
  else ret tt.

Definition insert_data (env : db_env) (device_id value full_topic : Py.str)
  : M world unit :=
  modify (fun w =>
            set_inserts (inserts w ++ [(device_id, value, full_topic)]) w) ;;
  call (mk_frame None None)
    (try_finally
       (try_except (insert_try env device_id value full_topic)
                   (insert_except env))
       (insert_finally env)).

(** [setup_db_pool()]; [pool_r] is the outcome of building the pool. *)
Definition setup_db_pool (pool_r : option exn) : M world unit :=
  c <- globals ;;
  logger INFO (LogPoolSetup (DB_USER c) (DB_HOST c) (DB_NAME c)) ;;
  try_except
    (outcome pool_r ;;
     modify (set_DB_POOL (Some 5)) ;;
     logger INFO LogPoolEstablished)
    (fun e =>
       logger ERROR (LogPoolError e) ;;
       sys_exit 1).

(** ** MQTT callbacks *)

Record message := mk_message {
  topic : Py.str;
  payload : Py.bytes
}.

Definition on_connect (rc : Z) : M world unit :=
  if (rc =? 0)%Z then
    logger INFO LogConnected ;;
    c <- globals ;;
    modify (fun w => set_client (client w ++ [ClientSubscribe (MQTT_TOPIC c)]) w) ;;
    logger INFO (LogSubscribed (MQTT_TOPIC c))
  else
    logger ERROR (LogConnectFailed rc).

(** [msg.payload.decode('utf-8')] *)
Definition decode {S} (b : Py.bytes) : M S Py.str :=
  match Py.decode_utf8 b with
  | Some s => ret s
  | None => raise invalid_utf8
  end.

Definition on_message (env : db_env) (msg : message) : M world unit :=
  let full_topic := topic msg in
  if negb (Py.startswith full_topic TOPIC_PREFIX) then
    logger DEBUG (LogSkipNonMatching full_topic)
  else
    try_except
      (let device_id := Py.slice_from (Py.len TOPIC_PREFIX) full_topic in
       value_payload <- decode (payload msg) ;;
       if Py.not_ device_id || Py.not_ value_payload then
         logger WARNING (LogSkipEmpty full_topic)
       else
         insert_data env device_id value_payload full_topic)
      (fun e => logger ERROR (LogProcessingError full_topic e)).

(** ** Main execution *)

(** What the broker client delivers while [loop_forever] runs: connection
    acknowledgements and published messages, each message with the behaviour
    of the database during its handling. *)
Inductive event :=
| Connack (rc : Z)
| Publish (msg : message) (env : db_env).

Definition dispatch (ev : event) : M world unit :=
  match ev with
  | Connack rc => on_connect rc
  | Publish msg env => on_message env msg
  end.

(** [mqtt_client.loop_forever()] over the events delivered before the process
    is killed: callbacks run one at a time, in order; an exception leaving a
    callback leaves the loop.  The call itself never returns while the
    process lives: [Returned] at the end of the list says that every
    delivered event was handled without an exception leaving a callback, and
    the world next to it is the one in which the process is killed. *)
Fixpoint loop_forever (evs : list event) : M world unit :=
  match evs with
  | [] => ret tt
  | ev :: rest => dispatch ev ;; loop_forever rest
  end.

(** What the surroundings do at startup: the outcome of building the pool
    and of connecting to the broker. *)
Record start_env := mk_start_env {
  pool_r : option exn;
  connect_r : option exn
}.

Definition client_call_ (c : client_call) : M world unit :=
  modify (fun w => set_client (client w ++ [c]) w).

Definition main (senv : start_env) (evs : list event) : M world unit :=
  logger INFO LogServiceStarted ;;
  setup_db_pool (pool_r senv) ;;
  client_call_ ClientNew ;;
  try_except
    (c <- globals ;;
     client_call_ (ClientConnect (MQTT_HOST c) (MQTT_PORT c) 60) ;;
     outcome (connect_r senv) ;;
     logger INFO LogAwaiting ;;
     client_call_ ClientLoopForever ;;
     loop_forever evs)
    (fun e => logger ERROR (LogMqttFailed e)).

(** The status the process ends with: 0 when the script runs to its end, the
    argument of [exit], 1 for an uncaught exception. *)
Definition exit_status {A} (r : result A) : Z :=
  match r with
  | Returned _ => 0
  | Raised _ => 1
  | SystemExit code => code
  end.

Section Startup.

(** [int(s)] for a [str]: the integer, or [None] for [ValueError]. *)
Variable py_int : Py.str -> option Z.

(** The [ValueError] of [int].  [exn_str] holds the leading part of its
    message; the quoted literal that follows in Python's text is not
    modelled. *)
Definition invalid_literal : exn :=
  mk_exn ValueError (Py.lit "invalid literal for int() with base 10").

Definition int_ {S} (s : Py.str) : M S Z :=
  match py_int s with
  | Some z => ret z
  | None => raise invalid_literal
  end.

(** [os.getenv(key, default)] with a [str] default. *)
Definition getenv (environ : string -> option Py.str) (key : string)
    (default : string) : Py.str :=
  match environ key with
  | Some v => v
  | None => Py.lit default
  end.

(** The module-level assignments of the configuration section, in order. *)
Definition load_config (environ : string -> option Py.str) : M world unit :=
  let mqtt_host := getenv environ "MQTT_HOST" "SITH-MQTT-Broker" in
  mqtt_port <- match environ "MQTT_PORT"%string with
               | Some s => int_ s
               | None => ret 1883%Z
               end ;;
  let mqtt_topic := getenv environ "MQTT_TOPIC" "roverCommsLog/#" in
  let db_host := getenv environ "DB_HOST" "SITH-MySQL" in
  let db_name := getenv environ "DB_NAME" "SITH" in
  let db_user := getenv environ "DB_USER" "SITH" in
  let db_pass := getenv environ "DB_PASS" "SITH" in
  modify (set_cfg (Some (mk_config mqtt_host mqtt_port mqtt_topic
                                   db_host db_name db_user db_pass))).

(** Running the script: the module level, then the main block. *)
Definition program (environ : string -> option Py.str) (senv : start_env)
    (evs : list event) : M world unit :=
  load_config environ ;;
  main senv evs.

End Startup.

(** The world a fresh process starts in: nothing bound, nothing logged, no
    pool, the table as it is on the server. *)
Definition fresh (rows : list row) : world :=
  mk_world None None rows [] [] [].

(** A reference reading of decimal literals made of ASCII digits only, used
    to run the program on concrete environments. *)
Fixpoint digits (acc : Z) (s : Py.str) : option Z :=
  match s with
  | [] => Some acc
  | c :: s' =>
      if ((48 <=? c) && (c <=? 57))%N
      then digits (10 * acc + Z.of_N (c - 48)) s'
      else None
  end.

Definition ascii_int (s : Py.str) : option Z :=
  match s with
  | [] => None
  | _ :: _ => digits 0 s
  end.

(** ** Vocabulary of the statements *)

(** [MQTT_TOPIC] replaced in the configuration globals. *)
Definition set_MQTT_TOPIC (t : Py.str) (c : config) : config :=
  mk_config (MQTT_HOST c) (MQTT_PORT c) t
            (DB_HOST c) (DB_NAME c) (DB_USER c) (DB_PASS c).

Definition with_MQTT_TOPIC (t : Py.str) (w : world) : world :=
  set_cfg (option_map (set_MQTT_TOPIC t) (cfg w)) w.

(** A published message together with the database behaviour it meets. *)
Definition publish (d : message * db_env) : event :=
  Publish (fst d) (snd d).

(** The world after the handler has run on one delivery. *)
Definition handled (w : world) (d : message * db_env) : world :=
  snd (on_message (snd d) (fst d) w).

(** The calls of [insert_data] made by a run from [w] to [w']. *)
Definition new_inserts (w w' : world) (l : list (Py.str * Py.str * Py.str))
  : Prop :=
  inserts w' = inserts w ++ l.

(** ** Concrete configurations, environments and messages *)

Definition default_config : config :=
  mk_config (Py.lit "SITH-MQTT-Broker") 1883 (Py.lit "roverCommsLog/#")
            (Py.lit "SITH-MySQL") (Py.lit "SITH") (Py.lit "SITH")
            (Py.lit "SITH").

(** After a successful startup: configuration bound, five idle connections,
    an empty table. *)
Definition ready : world :=
  mk_world (Some default_config) (Some 5) [] [] [] [].

(** Every connector call returns. *)
Definition healthy : db_env :=
  mk_db_env None None None None None true None None 1000.

Definition connection_lost : exn :=
  mk_exn DatabaseError
         (Py.lit "2013 (HY000): Lost connection to MySQL server during query").

(** The server goes away while the statement runs: [execute] raises, so does
    [rollback], and the connection reports that it is no longer connected. *)
Definition lost_env : db_env :=
  mk_db_env None None (Some connection_lost) None (Some connection_lost)
            false None None 1000.

Definition no_such_table : exn :=
  mk_exn DatabaseError
         (Py.lit "1146 (42S02): Table 'SITH.mqtt_data_log' doesn't exist").

Definition unknown_column : exn :=
  mk_exn DatabaseError
         (Py.lit "1054 (42S22): Unknown column 'device_id' in 'field list'").

(** The statement is refused, everything else works. *)
Definition refused_env (e : exn) : db_env :=
  mk_db_env None None (Some e) None None true None None 1000.

(** No cursor can be created on the connection, which stays connected. *)
Definition no_cursor_env : db_env :=
  mk_db_env None (Some connection_lost) None None None true None None 1000.

Definition reading_A : message :=
  mk_message (Py.lit "roverCommsLog/rover_A") (Py.blit "24.5").

Definition foreign_hello : message :=
  mk_message (Py.lit "otherTopic/x") (Py.blit "hello").

Definition empty_B : message :=
  mk_message (Py.lit "roverCommsLog/rover_B") [].

Definition bare_prefix_bad_bytes : message :=
  mk_message TOPIC_PREFIX [xff].

Definition environ_bad_port (key : string) : option Py.str :=
  if String.eqb key "MQTT_PORT" then Some (Py.lit "mqtt") else None.

Definition environ_empty (key : string) : option Py.str := None.

Definition pool_down : start_env :=
  mk_start_env (Some connection_lost) None.

(** ** Vocabulary of the further properties *)

(** What the data model asks of a stored reading: the topic is the prefix
    followed by the device id, and neither the device id nor the value is
    empty. *)
Definition well_formed_row (r : row) : Prop :=
  mqtt_topic r = TOPIC_PREFIX ++ device_id r /\
  device_id r <> [] /\ value_payload r <> [].

(** A connection acknowledgement with result code 0. *)
Definition accepted (ev : event) : bool :=
  match ev with
  | Connack rc => (rc =? 0)%Z
  | Publish _ _ => false
  end.

(** The world in which [loop_forever] starts when the pool was built and the
    broker connection was made. *)
Definition started (c : config) (w : world) : world :=
  mk_world (Some c) (Some 5) (mqtt_data_log w)
    (logged w ++ [(INFO, LogServiceStarted);
                  (INFO, LogPoolSetup (DB_USER c) (DB_HOST c) (DB_NAME c));
                  (INFO, LogPoolEstablished);
                  (INFO, LogAwaiting)])
    (inserts w)
    (client w ++ [ClientNew;
                  ClientConnect (MQTT_HOST c) (MQTT_PORT c) 60;
                  ClientLoopForever]).

(** The world in which [main] ends when the broker cannot be reached. *)
Definition unreachable (c : config) (e : exn) (w : world) : world :=
  mk_world (Some c) (Some 5) (mqtt_data_log w)
    (logged w ++ [(INFO, LogServiceStarted);
                  (INFO, LogPoolSetup (DB_USER c) (DB_HOST c) (DB_NAME c));
                  (INFO, LogPoolEstablished);
                  (ERROR, LogMqttFailed e)])
    (inserts w)
    (client w ++ [ClientNew;
                  ClientConnect (MQTT_HOST c) (MQTT_PORT c) 60]).

(** The exception, if any, that cleanup raises once the cursor exists:
    nothing is closed on a connection that reports itself disconnected;
    otherwise [cursor.close()] comes first, then [conn.close()]. *)
Definition cleanup_error (env : db_env) : option exn :=
  if is_connected_r env then
    match cursor_close_r env with
    | Some e => Some e
    | None => conn_close_r env
    end
  else None.

(** Configuration read, pool not yet built. *)
Definition configured : world :=
  mk_world (Some default_config) None [] [] [] [].

(** Every connection of the pool is checked out. *)
Definition drained : world :=
  mk_world (Some default_config) (Some 0) [] [] [] [].

Definition connection_refused : exn :=
  mk_exn ConnectionError (Py.lit "[Errno 111] Connection refused").

Definition broker_down : start_env :=
  mk_start_env None (Some connection_refused).

Definition all_up : start_env := mk_start_env None None.

Definition environ_port_8883 (key : string) : option Py.str :=
  if String.eqb key "MQTT_PORT" then Some (Py.lit "8883") else None.

(** * Properties *)

(** ** Strings *)

Lemma startswith_app (p x : Py.str) : Py.startswith (p ++ x) p = true.
Proof.
  induction p as [|c p IH]; simpl; [reflexivity|].
  now rewrite N.eqb_refl, IH.
Qed.

Lemma startswith_inv (p s : Py.str) :
  Py.startswith s p = true -> exists x, s = p ++ x.
Proof.
  revert s; induction p as [|c p IH]; intros s H.
  - now exists s.
  - destruct s as [|d s]; simpl in H; [discriminate|].
    apply andb_true_iff in H as [Hc Hs].
    apply N.eqb_eq in Hc; subst d.
    destruct (IH _ Hs) as [x ->].
    now exists x.
Qed.

Lemma slice_from_app (p x : Py.str) : Py.slice_from (Py.len p) (p ++ x) = x.
Proof.
  unfold Py.slice_from, Py.len.
  induction p as [|c p IH]; simpl; [reflexivity | exact IH].
Qed.

Lemma not_true_iff (s : Py.str) : Py.not_ s = true <-> s = [].
Proof. destruct s; simpl; split; congruence. Qed.

Lemma not_false_iff (s : Py.str) : Py.not_ s = false <-> s <> [].
Proof. destruct s; simpl; split; congruence. Qed.

(** Only the empty payload decodes to the empty string. *)
Lemma decode_utf8_empty (b : Py.bytes) :
  Py.decode_utf8 b = Some [] <-> b = [].
Proof.
  split; [|intros ->; reflexivity].
  destruct b as [|b0 r0]; [reflexivity|].
  intros H; exfalso; revert H; cbn -[N.ltb Py.in_range]; intros H.
  repeat match type of H with
         | (if ?c then _ else _) = _ => destruct c
         | match ?l with | [] => _ | _ :: _ => _ end = _ => destruct l
         | option_map _ ?o = _ => destruct o; simpl in H
         end; discriminate.
Qed.
Example decode_ascii_reading :
  Py.decode_utf8 (Py.blit "24.5") = Some (Py.lit "24.5").
Proof. reflexivity. Qed.

Example decode_e_acute :
  Py.decode_utf8 [xc3; xa9] = Some [233%N].
Proof. reflexivity. Qed.

Example decode_euro_sign :
  Py.decode_utf8 [xe2; x82; xac] = Some [8364%N].
Proof. reflexivity. Qed.

Example decode_rejects_lone_ff : Py.decode_utf8 [xff] = None.
Proof. reflexivity. Qed.

Example decode_rejects_overlong : Py.decode_utf8 [xc0; x80] = None.
Proof. reflexivity. Qed.

Example decode_rejects_surrogate : Py.decode_utf8 [xed; xa0; x80] = None.
Proof. reflexivity. Qed.

Example decode_keeps_spaces :
  Py.decode_utf8 (Py.blit " 24.5 ") = Some (Py.lit " 24.5 ").
Proof. reflexivity. Qed.

(** ** [insert_data] *)

Ltac unfold_insert :=
  unfold insert_data, insert_try, insert_except, insert_finally, call,
    try_finally, try_except, conn_cursor, cursor_execute, conn_commit,
    conn_rollback, conn_is_connected, cursor_close, conn_close, the_conn,
    the_cursor, get_connection, set_conn, set_cursor, lift, logger, outcome,
    bind, ret, raise, modify, gets.

(** Case analysis on everything the environment and the pool decide. *)
Ltac insert_cases env w :=
  destruct env as [? ? ? ? ? ? ? ? ?];
  destruct w as [? [[|?]|] ? ? ? ?];
  unfold_insert; cbn -[is_schema_error];
  repeat (match goal with
          | |- context [match ?x with _ => _ end] => is_var x; destruct x
          | |- context [is_schema_error ?m] => destruct (is_schema_error m)
          end; cbn -[is_schema_error]).

(** What [insert_data] leaves alone, and the only ways it changes the rest. *)
Lemma insert_data_frame env d v t w :
  let w' := snd (insert_data env d v t w) in
  cfg w' = cfg w /\ client w' = client w /\
  inserts w' = inserts w ++ [(d, v, t)] /\
  (mqtt_data_log w' = mqtt_data_log w \/
   mqtt_data_log w' = mqtt_data_log w ++ [mk_row d v t (now env)]).
Proof.
  insert_cases env w; auto 6.
Qed.

(** [insert_data] never ends the process. *)
Lemma insert_data_no_exit env d v t w :
  fst (insert_data env d v t w) = Returned tt \/
  exists e, fst (insert_data env d v t w) = Raised e.
Proof.
  insert_cases env w; eauto.
Qed.

(** The configuration globals play no part in [insert_data]. *)
Lemma insert_data_set_cfg env d v t c w :
  insert_data env d v t (set_cfg c w) =
  (fst (insert_data env d v t w), set_cfg c (snd (insert_data env d v t w))).
Proof.
  insert_cases env w; reflexivity.
Qed.

(** With a working database and an idle connection the row is committed and
    the connection is back in the pool. *)
Lemma insert_data_healthy env d v t w n :
  DB_POOL w = Some (S n) ->
  get_connection_r env = None -> cursor_r env = None ->
  execute_r env = None -> commit_r env = None ->
  is_connected_r env = true ->
  cursor_close_r env = None -> conn_close_r env = None ->
  insert_data env d v t w =
  (Returned tt,
   mk_world (cfg w) (Some (S n))
            (mqtt_data_log w ++ [mk_row d v t (now env)])
            (logged w ++ [(DEBUG, LogInserted d v t)])
            (inserts w ++ [(d, v, t)])
            (client w)).
Proof.
  destruct env as [g c e cm r ic cc cl nw];
    destruct w as [cf p tb lg ins cli]; simpl.
  intros -> -> -> -> -> -> -> ->. reflexivity.
Qed.

(** A statement that fails on a connection that stays usable: the
    transaction is rolled back, one error record is logged according to the
    text of the exception, the connection goes back and the call returns. *)
Lemma insert_data_statement_refused env e d v t w n :
  DB_POOL w = Some (S n) ->
  get_connection_r env = None -> cursor_r env = None ->
  execute_r env = Some e -> rollback_r env = None ->
  is_connected_r env = true ->
  cursor_close_r env = None -> conn_close_r env = None ->
  insert_data env d v t w =
  (Returned tt,
   mk_world (cfg w) (Some (S n)) (mqtt_data_log w)
            (logged w ++ [(ERROR, if is_schema_error (exn_str e)
                                  then LogSchemaMissing
                                  else LogInsertionError e)])
            (inserts w ++ [(d, v, t)])
            (client w)).
Proof.
  destruct env as [g c ex cm r ic cc cl nw];
    destruct w as [cf p tb lg ins cli]; simpl.
  intros -> -> -> -> -> -> -> ->.
  unfold_insert; cbn -[is_schema_error].
  destruct (is_schema_error (exn_str e)); reflexivity.
Qed.

(** A connection that reports itself disconnected at cleanup is not handed
    back: the pool has one connection fewer after the call. *)
Lemma insert_data_disconnected_not_released env d v t w n :
  DB_POOL w = Some (S n) ->
  get_connection_r env = None ->
  is_connected_r env = false ->
  DB_POOL (snd (insert_data env d v t w)) = Some n.
Proof.
  intros Hp Hg Hc.
  insert_cases env w; simpl in *; try discriminate; congruence.
Qed.

(** ** [on_message], case by case *)

Lemma on_message_foreign env msg w :
  Py.startswith (topic msg) TOPIC_PREFIX = false ->
  on_message env msg w =
  (Returned tt,
   set_logged (logged w ++ [(DEBUG, LogSkipNonMatching (topic msg))]) w).
Proof.
  intros H. unfold on_message. rewrite H. reflexivity.
Qed.

Lemma on_message_undecodable env msg w :
  Py.startswith (topic msg) TOPIC_PREFIX = true ->
  Py.decode_utf8 (payload msg) = None ->
  on_message env msg w =
  (Returned tt,
   set_logged
     (logged w ++ [(ERROR, LogProcessingError (topic msg) invalid_utf8)]) w).
Proof.
  intros H D. unfold on_message, decode, try_except, bind.
  rewrite H, D. reflexivity.
Qed.

Lemma on_message_empty_field env msg v w :
  Py.startswith (topic msg) TOPIC_PREFIX = true ->
  Py.decode_utf8 (payload msg) = Some v ->
  Py.slice_from (Py.len TOPIC_PREFIX) (topic msg) = [] \/ v = [] ->
  on_message env msg w =
  (Returned tt,
   set_logged (logged w ++ [(WARNING, LogSkipEmpty (topic msg))]) w).
Proof.
  intros H D E. unfold on_message, decode, try_except, bind, ret.
  rewrite H, D; cbv beta iota delta [negb].
  assert (Py.not_ (Py.slice_from (Py.len TOPIC_PREFIX) (topic msg))
          || Py.not_ v = true) as ->.
  { apply orb_true_iff. destruct E as [E|E]; [left|right];
      now apply not_true_iff. }
  reflexivity.
Qed.

Lemma on_message_insert env msg v w :
  Py.startswith (topic msg) TOPIC_PREFIX = true ->
  Py.decode_utf8 (payload msg) = Some v ->
  Py.slice_from (Py.len TOPIC_PREFIX) (topic msg) <> [] -> v <> [] ->
  on_message env msg w =
  try_except
    (insert_data env (Py.slice_from (Py.len TOPIC_PREFIX) (topic msg)) v
                 (topic msg))
    (fun e => logger ERROR (LogProcessingError (topic msg) e)) w.
Proof.
  intros H D E1 E2. unfold on_message, decode, try_except, bind, ret.
  rewrite H, D; cbv beta iota delta [negb].
  apply not_false_iff in E1, E2. rewrite E1, E2. reflexivity.
Qed.

(** The handler around [insert_data]: same calls, same table, and whatever
    [insert_data] raises is logged instead of leaving the handler. *)
Lemma guarded_insert_data env d v t top w :
  let r := try_except (insert_data env d v t)
             (fun e => logger ERROR (LogProcessingError top e)) w in
  let w1 := snd (insert_data env d v t w) in
  fst r = Returned tt /\
  cfg (snd r) = cfg w1 /\ DB_POOL (snd r) = DB_POOL w1 /\
  mqtt_data_log (snd r) = mqtt_data_log w1 /\
  inserts (snd r) = inserts w1 /\ client (snd r) = client w1.
Proof.
  unfold try_except; simpl.
  destruct (insert_data_no_exit env d v t w) as [H|[e H]];
    destruct (insert_data env d v t w) as [r w1]; simpl in *; subst;
    repeat split; reflexivity.
Qed.

(** The four cases cover every message. *)
Lemma on_message_cases msg :
  Py.startswith (topic msg) TOPIC_PREFIX = false \/
  (Py.startswith (topic msg) TOPIC_PREFIX = true /\
   (Py.decode_utf8 (payload msg) = None \/
    exists v, Py.decode_utf8 (payload msg) = Some v /\
      ((Py.slice_from (Py.len TOPIC_PREFIX) (topic msg) = [] \/ v = []) \/
       (Py.slice_from (Py.len TOPIC_PREFIX) (topic msg) <> [] /\ v <> [])))).
Proof.
  destruct (Py.startswith (topic msg) TOPIC_PREFIX); [right|now left].
  split; [reflexivity|].
  destruct (Py.decode_utf8 (payload msg)) as [v|]; [right|now left].
  exists v; split; [reflexivity|].
  destruct (Py.slice_from (Py.len TOPIC_PREFIX) (topic msg)), v;
    auto; right; split; discriminate.
Qed.

Lemma on_message_returns env msg w :
  fst (on_message env msg w) = Returned tt.
Proof.
  destruct (on_message_cases msg) as [H|[H [D|[v [D [E|[E1 E2]]]]]]].
  - now rewrite on_message_foreign.
  - now rewrite on_message_undecodable.
  - now rewrite (on_message_empty_field env msg w H D E).
  - rewrite (on_message_insert env msg w H D E1 E2).
    apply guarded_insert_data.
Qed.

Lemma on_message_set_cfg env msg c w :
  on_message env msg (set_cfg c w) =
  (fst (on_message env msg w), set_cfg c (snd (on_message env msg w))).
Proof.
  destruct (on_message_cases msg) as [H|[H [D|[v [D [E|[E1 E2]]]]]]].
  - now rewrite !on_message_foreign.
  - now rewrite !on_message_undecodable.
  - now rewrite !(on_message_empty_field env msg _ H D E).
  - rewrite !(on_message_insert env msg _ H D E1 E2).
    unfold try_except. rewrite insert_data_set_cfg.
    destruct (insert_data env _ v (topic msg) w) as [[u|e|k] w1];
      reflexivity.
Qed.

(** [insert_data] takes at most one connection out of the pool and never
    adds one. *)
Lemma insert_data_pool env d v t w n :
  DB_POOL w = Some (S n) ->
  DB_POOL (snd (insert_data env d v t w)) = Some (S n) \/
  DB_POOL (snd (insert_data env d v t w)) = Some n.
Proof.
  intros Hp.
  insert_cases env w; simpl in *; try discriminate;
    injection Hp as ->; auto.
Qed.

Lemma on_message_pool env msg w n :
  DB_POOL w = Some (S n) ->
  DB_POOL (snd (on_message env msg w)) = Some (S n) \/
  DB_POOL (snd (on_message env msg w)) = Some n.
Proof.
  intros Hp.
  destruct (on_message_cases msg) as [H|[H [D|[v [D [E|[E1 E2]]]]]]].
  - rewrite on_message_foreign by exact H. now left.
  - rewrite on_message_undecodable by assumption. now left.
  - rewrite (on_message_empty_field env msg w H D E). now left.
  - rewrite (on_message_insert env msg w H D E1 E2).
    destruct (guarded_insert_data env
                (Py.slice_from (Py.len TOPIC_PREFIX) (topic msg)) v
                (topic msg) (topic msg) w) as (_ & _ & -> & _).
    now apply insert_data_pool.
Qed.

(** A well-formed reading that meets a working database and an idle
    connection is stored as one row: device id from the topic suffix, the
    decoded payload, the full topic, the server's time. *)
Lemma on_message_stores_reading env msg v w n :
  Py.startswith (topic msg) TOPIC_PREFIX = true ->
  Py.slice_from (Py.len TOPIC_PREFIX) (topic msg) <> [] ->
  Py.decode_utf8 (payload msg) = Some v -> v <> [] ->
  DB_POOL w = Some (S n) ->
  get_connection_r env = None -> cursor_r env = None ->
  execute_r env = None -> commit_r env = None ->
  is_connected_r env = true ->
  cursor_close_r env = None -> conn_close_r env = None ->
  mqtt_data_log (snd (on_message env msg w)) =
  mqtt_data_log w ++
  [mk_row (Py.slice_from (Py.len TOPIC_PREFIX) (topic msg)) v (topic msg)
          (now env)] /\
  DB_POOL (snd (on_message env msg w)) = Some (S n).
Proof.
  intros Hs Hd D Hv Hp H1 H2 H3 H4 H5 H6 H7.
  rewrite (on_message_insert env msg w Hs D Hd Hv).
  unfold try_except.
  rewrite (insert_data_healthy env _ v (topic msg) w Hp H1 H2 H3 H4 H5 H6 H7).
  split; reflexivity.
Qed.

(** ** The handler: filter, device id, payload *)

(** C1.  A message whose topic does not start with [roverCommsLog/] makes
    the handler return after one debug-level record: no call of
    [insert_data], the pool, the table, the configuration, the broker client
    and the console output are as before. *)
Theorem on_message_foreign_topic_untouched env msg w :
  Py.startswith (topic msg) TOPIC_PREFIX = false ->
  let r := on_message env msg w in
  fst r = Returned tt /\
  logged (snd r) = logged w ++ [(DEBUG, LogSkipNonMatching (topic msg))] /\
  inserts (snd r) = inserts w /\
  DB_POOL (snd r) = DB_POOL w /\
  mqtt_data_log (snd r) = mqtt_data_log w /\
  cfg (snd r) = cfg w /\ client (snd r) = client w /\
  console (snd r) = console w.
Proof.
  intros H r; subst r. rewrite (on_message_foreign env msg w H); simpl.
  repeat split. unfold console; simpl.
  rewrite filter_app; simpl. apply app_nil_r.
Qed.

Lemma on_message_foreign_topic_untouched_witness :
  Py.startswith (topic foreign_hello) TOPIC_PREFIX = false /\
  mqtt_data_log (snd (on_message healthy foreign_hello ready)) = [] /\
  inserts (snd (on_message healthy foreign_hello ready)) = [].
Proof.
  split; [reflexivity|].
  pose proof (on_message_foreign_topic_untouched healthy foreign_hello ready
                eq_refl) as H.
  cbv zeta in H. destruct H as (_ & _ & Hi & _ & Ht & _).
  split; [exact Ht | exact Hi].
Defined.

(** C2.  For a topic [roverCommsLog/] followed by a non-empty [X], the
    device id the handler extracts is [X], and the only call of
    [insert_data] it can make carries [X] as its device id: one call when the
    payload decodes to a non-empty string, none otherwise. *)
Theorem on_message_device_id_is_suffix (X : Py.str) (b : Py.bytes) env w :
  X <> [] ->
  let msg := mk_message (TOPIC_PREFIX ++ X) b in
  Py.startswith (topic msg) TOPIC_PREFIX = true /\
  Py.slice_from (Py.len TOPIC_PREFIX) (topic msg) = X /\
  new_inserts w (snd (on_message env msg w))
    (match Py.decode_utf8 b with
     | Some (c :: v) => [(X, c :: v, topic msg)]
     | _ => []
     end).
Proof.
  intros HX msg.
  assert (Hs : Py.startswith (topic msg) TOPIC_PREFIX = true)
    by apply startswith_app.
  assert (Hd : Py.slice_from (Py.len TOPIC_PREFIX) (topic msg) = X)
    by apply slice_from_app.
  split; [exact Hs|]. split; [exact Hd|].
  unfold new_inserts.
  destruct (Py.decode_utf8 b) as [[|c v]|] eqn:D.
  - rewrite (on_message_empty_field env msg w Hs D (or_intror eq_refl)).
    simpl. now rewrite app_nil_r.
  - assert (Hv : c :: v <> []) by discriminate.
    assert (HX' : Py.slice_from (Py.len TOPIC_PREFIX) (topic msg) <> [])
      by now rewrite Hd.
    rewrite (on_message_insert env msg w Hs D HX' Hv), Hd.
    destruct (guarded_insert_data env X (c :: v) (topic msg) (topic msg) w)
      as (_ & _ & _ & _ & Hi & _).
    rewrite Hi. apply insert_data_frame.
  - rewrite (on_message_undecodable env msg w Hs D).
    simpl. now rewrite app_nil_r.
Qed.

Lemma on_message_device_id_is_suffix_witness :
  Py.lit "rover_A" <> [] /\
  inserts (snd (on_message healthy reading_A ready)) =
  [(Py.lit "rover_A", Py.lit "24.5", Py.lit "roverCommsLog/rover_A")].
Proof.
  assert (H : Py.lit "rover_A" <> []) by discriminate.
  split; [exact H|].
  exact (proj2 (proj2 (on_message_device_id_is_suffix
                         (Py.blit "24.5") healthy ready H))).
Defined.

(** C3.  For a message that reaches the payload stage (its topic passes the
    prefix filter with a non-empty device id) and whose payload decodes to a
    non-empty string [v], [insert_data] is called exactly once, with [v]
    itself as the value: nothing is trimmed, parsed or converted, and the
    only row the call can add to the table has [v] as its [value_payload]. *)
Theorem on_message_inserts_decoded_payload env msg v w :
  Py.startswith (topic msg) TOPIC_PREFIX = true ->
  Py.slice_from (Py.len TOPIC_PREFIX) (topic msg) <> [] ->
  Py.decode_utf8 (payload msg) = Some v ->
  v <> [] ->
  let dev := Py.slice_from (Py.len TOPIC_PREFIX) (topic msg) in
  let w' := snd (on_message env msg w) in
  new_inserts w w' [(dev, v, topic msg)] /\
  (mqtt_data_log w' = mqtt_data_log w \/
   mqtt_data_log w' = mqtt_data_log w ++ [mk_row dev v (topic msg) (now env)]).
Proof.
  intros Hs Hd D Hv dev w'; subst w'.
  rewrite (on_message_insert env msg w Hs D Hd Hv). fold dev.
  destruct (guarded_insert_data env dev v (topic msg) (topic msg) w)
    as (_ & _ & _ & Ht & Hi & _).
  unfold new_inserts. rewrite Hi, Ht.
  destruct (insert_data_frame env dev v (topic msg) w) as (_ & _ & Hi' & Ht').
  split; [exact Hi' | exact Ht'].
Qed.

Lemma on_message_inserts_decoded_payload_witness :
  mqtt_data_log (snd (on_message healthy reading_A ready)) = [] \/
  mqtt_data_log (snd (on_message healthy reading_A ready)) =
  [mk_row (Py.lit "rover_A") (Py.lit "24.5")
          (Py.lit "roverCommsLog/rover_A") 1000].
Proof.
  assert (H1 : Py.slice_from (Py.len TOPIC_PREFIX) (topic reading_A) <> [])
    by discriminate.
  assert (H2 : Py.lit "24.5" <> []) by discriminate.
  exact (proj2 (on_message_inserts_decoded_payload
                  healthy reading_A ready eq_refl H1 eq_refl H2)).
Defined.

(** C4, at the input that refutes it as stated: the topic is the prefix
    alone, so the device id is empty, but the payload is not UTF-8; the one
    record logged is at error level, not a warning. *)
Lemma bare_prefix_bad_payload_logs_error :
  Py.startswith (topic bare_prefix_bad_bytes) TOPIC_PREFIX = true /\
  Py.slice_from (Py.len TOPIC_PREFIX) (topic bare_prefix_bad_bytes) = [] /\
  logged (snd (on_message healthy bare_prefix_bad_bytes ready)) =
  [(ERROR, LogProcessingError TOPIC_PREFIX invalid_utf8)].
Proof.
  repeat split; reflexivity.
Qed.

(** C4, amended.  For a message with a prefix-matching topic whose device id
    is empty or whose payload decodes to the empty string, the handler makes
    no call of [insert_data] and leaves the pool and the table as they are;
    it returns after one record, a warning when the payload decodes and an
    error when it does not. *)
Theorem on_message_discards_empty_fields env msg w :
  Py.startswith (topic msg) TOPIC_PREFIX = true ->
  Py.slice_from (Py.len TOPIC_PREFIX) (topic msg) = [] \/
  Py.decode_utf8 (payload msg) = Some [] ->
  let r := on_message env msg w in
  fst r = Returned tt /\
  inserts (snd r) = inserts w /\
  DB_POOL (snd r) = DB_POOL w /\
  mqtt_data_log (snd r) = mqtt_data_log w /\
  logged (snd r) =
  logged w ++ [match Py.decode_utf8 (payload msg) with
               | Some _ => (WARNING, LogSkipEmpty (topic msg))
               | None => (ERROR, LogProcessingError (topic msg) invalid_utf8)
               end].
Proof.
  intros Hs E r; subst r.
  destruct (Py.decode_utf8 (payload msg)) as [v|] eqn:D.
  - assert (E' : Py.slice_from (Py.len TOPIC_PREFIX) (topic msg) = []
                 \/ v = []).
    { destruct E as [E|E]; [now left | right; congruence]. }
    rewrite (on_message_empty_field env msg w Hs D E').
    repeat split.
  - rewrite (on_message_undecodable env msg w Hs D).
    repeat split.
Qed.

Lemma on_message_discards_empty_fields_witness :
  logged (snd (on_message healthy empty_B ready)) =
  [(WARNING, LogSkipEmpty (Py.lit "roverCommsLog/rover_B"))] /\
  mqtt_data_log (snd (on_message healthy empty_B ready)) = [].
Proof.
  pose proof (on_message_discards_empty_fields healthy empty_B ready
                eq_refl (or_intror eq_refl)) as H.
  cbv zeta in H. destruct H as (_ & _ & _ & Ht & Hl).
  split; [exact Hl | exact Ht].
Defined.

(** ** Errors stay inside the handler *)

Lemma loop_forever_publish (ds : list (message * db_env)) w :
  loop_forever (map publish ds) w = (Returned tt, fold_left handled ds w).
Proof.
  revert w; induction ds as [|d ds IH]; intros w; simpl; [reflexivity|].
  unfold bind, publish at 1, handled at 2; simpl.
  pose proof (on_message_returns (snd d) (fst d) w) as H.
  destruct (on_message (snd d) (fst d) w) as [r w1]; simpl in *; subst r.
  apply IH.
Qed.

(** C5.  Whatever the message and whatever the database does, the handler
    returns: no exception and no exit leaves [on_message].  Hence the session
    loop hands every delivered message to the handler, each one starting from
    the world the previous one left, and returns itself. *)
Theorem on_message_never_raises :
  (forall env msg w, exists w', on_message env msg w = (Returned tt, w')) /\
  (forall (ds : list (message * db_env)) w,
      loop_forever (map publish ds) w =
      (Returned tt, fold_left handled ds w)).
Proof.
  split.
  - intros env msg w. exists (snd (on_message env msg w)).
    pose proof (on_message_returns env msg w) as H.
    destruct (on_message env msg w) as [r w1]; simpl in *; now subst r.
  - exact loop_forever_publish.
Qed.

(** Whatever happened to one message, a well-formed reading that follows it
    is stored as soon as the database works, provided the pool held two idle
    connections before the first of the two. *)
Lemma next_reading_stored env1 msg1 env msg v w n :
  DB_POOL w = Some (S (S n)) ->
  Py.startswith (topic msg) TOPIC_PREFIX = true ->
  Py.slice_from (Py.len TOPIC_PREFIX) (topic msg) <> [] ->
  Py.decode_utf8 (payload msg) = Some v -> v <> [] ->
  get_connection_r env = None -> cursor_r env = None ->
  execute_r env = None -> commit_r env = None ->
  is_connected_r env = true ->
  cursor_close_r env = None -> conn_close_r env = None ->
  let w1 := handled w (msg1, env1) in
  mqtt_data_log (handled w1 (msg, env)) =
  mqtt_data_log w1 ++
  [mk_row (Py.slice_from (Py.len TOPIC_PREFIX) (topic msg)) v (topic msg)
          (now env)].
Proof.
  intros Hp Hs Hd D Hv H1 H2 H3 H4 H5 H6 H7 w1.
  destruct (on_message_pool env1 msg1 w Hp) as [Hp1|Hp1];
    exact (proj1 (on_message_stores_reading env msg w1
                    Hs Hd D Hv Hp1 H1 H2 H3 H4 H5 H6 H7)).
Qed.

(** A message that meets a lost connection is followed by one that is
    stored. *)
Example failure_then_success :
  let w := fold_left handled [(reading_A, lost_env); (reading_A, healthy)]
             ready in
  mqtt_data_log w =
  [mk_row (Py.lit "rover_A") (Py.lit "24.5")
          (Py.lit "roverCommsLog/rover_A") 1000] /\
  map fst (logged w) = [ERROR; DEBUG].
Proof. split; reflexivity. Qed.

(** ** The connection and the pool *)

(** C6, evaluated where the code departs from it: the connection is taken
    from a pool of five, the server goes away during the statement, cleanup
    finds the connection disconnected and skips [conn.close()]; when
    [insert_data] is over the pool still has only four connections. *)
Lemma insert_data_keeps_lost_connection :
  DB_POOL ready = Some 5 /\
  get_connection_r lost_env = None /\
  DB_POOL (snd (insert_data lost_env (Py.lit "rover_A") (Py.lit "24.5")
                            (Py.lit "roverCommsLog/rover_A") ready))
  = Some 4.
Proof.
  repeat split; reflexivity.
Qed.

(** When exactly the connection acquired by [insert_data] is back in the
    pool at the end: cleanup must find it connected, the cursor must have
    been created, and [cursor.close()] must return; what the statement, the
    commit, the rollback and [conn.close()] do makes no difference. *)
Lemma insert_data_release_cases env d v t w n :
  DB_POOL w = Some (S n) ->
  get_connection_r env = None ->
  DB_POOL (snd (insert_data env d v t w)) =
  Some (match is_connected_r env, cursor_r env, cursor_close_r env with
        | true, None, None => S n
        | _, _, _ => n
        end).
Proof.
  intros Hp Hg.
  insert_cases env w; simpl in *; try discriminate; congruence.
Qed.

(** Five lost connections empty the pool for good: the sixth message cannot
    be stored although the database is healthy again. *)
Example pool_drained_after_five_losses :
  let w := fold_left handled
             [(reading_A, lost_env); (reading_A, lost_env);
              (reading_A, lost_env); (reading_A, lost_env);
              (reading_A, lost_env); (reading_A, healthy)] ready in
  DB_POOL w = Some 0 /\ mqtt_data_log w = [] /\
  last (logged w) (DEBUG, LogAwaiting) =
  (ERROR, LogInsertionError pool_exhausted).
Proof. repeat split; reflexivity. Qed.

(** ** Failures of the insert *)

(** C7, evaluated where the code departs from it.  The connection is
    acquired, the server goes away during the statement, the rollback
    attempted in the handler raises in turn: [insert_data] does not return,
    the exception of the rollback leaves it, and it has logged nothing. *)
Theorem insert_data_lost_connection_escapes :
  let r := insert_data lost_env (Py.lit "rover_A") (Py.lit "24.5")
                       (Py.lit "roverCommsLog/rover_A") ready in
  fst r = Raised connection_lost /\
  logged (snd r) = [] /\
  DB_POOL (snd r) = Some 4.
Proof.
  repeat split; reflexivity.
Qed.

(** The same departure when the cursor cannot be created: the error is
    rolled back and logged, then cleanup reads the unbound [cursor]. *)
Example insert_data_unbound_cursor :
  let r := insert_data no_cursor_env (Py.lit "rover_A") (Py.lit "24.5")
                       (Py.lit "roverCommsLog/rover_A") ready in
  fst r = Raised cursor_unbound /\
  logged (snd r) = [(ERROR, LogInsertionError connection_lost)] /\
  DB_POOL (snd r) = Some 4.
Proof. repeat split; reflexivity. Qed.

(** The text MySQL gives for a missing table names the table with its
    database, so the search for ['mqtt_data_log' doesn't exist] misses it;
    a missing column is recognised. *)
Example missing_table_logged_as_generic :
  is_schema_error (exn_str no_such_table) = false /\
  is_schema_error (exn_str unknown_column) = true /\
  logged (snd (insert_data (refused_env no_such_table) (Py.lit "rover_A")
                           (Py.lit "24.5") (Py.lit "roverCommsLog/rover_A")
                           ready))
  = [(ERROR, LogInsertionError no_such_table)].
Proof. repeat split; reflexivity. Qed.

(** ** Startup *)

(** C8.  When building the pool fails, [main] logs the error and exits with
    status 1: the broker client is never created, connected or run, and no
    message is handled. *)
Theorem main_exits_when_pool_fails senv evs w c e :
  cfg w = Some c ->
  pool_r senv = Some e ->
  main senv evs w =
  (SystemExit 1,
   set_logged (logged w ++ [(INFO, LogServiceStarted);
                            (INFO, LogPoolSetup (DB_USER c) (DB_HOST c)
                                                (DB_NAME c));
                            (ERROR, LogPoolError e)]) w) /\
  exit_status (fst (main senv evs w)) <> 0%Z /\
  client (snd (main senv evs w)) = client w /\
  inserts (snd (main senv evs w)) = inserts w /\
  mqtt_data_log (snd (main senv evs w)) = mqtt_data_log w /\
  DB_POOL (snd (main senv evs w)) = DB_POOL w.
Proof.
  intros Hc Hp.
  assert (H : main senv evs w =
    (SystemExit 1,
     set_logged (logged w ++ [(INFO, LogServiceStarted);
                              (INFO, LogPoolSetup (DB_USER c) (DB_HOST c)
                                                  (DB_NAME c));
                              (ERROR, LogPoolError e)]) w)).
  { destruct w as [cf p tb lg ins cli]; simpl in Hc; subst cf.
    unfold main, setup_db_pool, try_except, globals, logger, outcome, bind,
      modify, raise, sys_exit; simpl.
    rewrite Hp; simpl. unfold set_logged; simpl.
    now rewrite <- !app_assoc. }
  rewrite H; simpl. repeat split. discriminate.
Qed.

Lemma main_exits_when_pool_fails_witness :
  exit_status
    (fst (main pool_down [Publish reading_A healthy] ready)) <> 0%Z /\
  client (snd (main pool_down [Publish reading_A healthy] ready)) = [].
Proof.
  pose proof (main_exits_when_pool_fails pool_down
                [Publish reading_A healthy] ready eq_refl eq_refl) as H.
  destruct H as (_ & Hs & Hc & _).
  split; [exact Hs | exact Hc].
Defined.

(** With the pool in place the same delivery is stored. *)
Example main_stores_reading :
  let r := main (mk_start_env None None)
                [Connack 0; Publish reading_A healthy] ready in
  fst r = Returned tt /\
  mqtt_data_log (snd r) =
  [mk_row (Py.lit "rover_A") (Py.lit "24.5")
          (Py.lit "roverCommsLog/rover_A") 1000] /\
  client (snd r) =
  [ClientNew;
   ClientConnect (Py.lit "SITH-MQTT-Broker") 1883 60;
   ClientLoopForever;
   ClientSubscribe (Py.lit "roverCommsLog/#")].
Proof. repeat split; reflexivity. Qed.

(** ** The subscription filter and the handler *)

(** C9.  The handler never reads [MQTT_TOPIC]: run on the same message, in
    the same world and against the same database behaviour, under any two
    values of [MQTT_TOPIC], it ends the same way, logs the same records,
    makes the same calls of [insert_data], and leaves the same table and
    pool. *)
Theorem on_message_independent_of_MQTT_TOPIC t1 t2 env msg w :
  let r1 := on_message env msg (with_MQTT_TOPIC t1 w) in
  let r2 := on_message env msg (with_MQTT_TOPIC t2 w) in
  fst r1 = fst r2 /\
  logged (snd r1) = logged (snd r2) /\
  inserts (snd r1) = inserts (snd r2) /\
  mqtt_data_log (snd r1) = mqtt_data_log (snd r2) /\
  DB_POOL (snd r1) = DB_POOL (snd r2) /\
  client (snd r1) = client (snd r2).
Proof.
  unfold with_MQTT_TOPIC; simpl.
  rewrite !on_message_set_cfg; simpl.
  repeat split.
Qed.

(** The subscription, by contrast, is made with [MQTT_TOPIC] as configured. *)
Lemma on_connect_subscribes c w :
  cfg w = Some c ->
  client (snd (on_connect 0 w)) = client w ++ [ClientSubscribe (MQTT_TOPIC c)].
Proof.
  intros H. destruct w as [cf p tb lg ins cli]; simpl in H; subst cf.
  reflexivity.
Qed.

(** With the filter set to another hierarchy, what the broker then delivers
    is discarded by the handler. *)
Example other_hierarchy_discarded :
  let w := with_MQTT_TOPIC (Py.lit "sensors/#") ready in
  let r := on_message healthy
             (mk_message (Py.lit "sensors/rover_A") (Py.blit "24.5")) w in
  mqtt_data_log (snd r) = [] /\ inserts (snd r) = [] /\
  console (snd r) = [].
Proof. repeat split; reflexivity. Qed.

(** ** Configuration loading *)

(** C10.  When [MQTT_PORT] is set to a string that [int] rejects, the script
    stops with [ValueError] while the configuration is being read: the
    process ends with a non-zero status, nothing has been logged, no pool
    exists, the broker client was never touched. *)
Theorem program_fails_on_bad_port
    (py_int : Py.str -> option Z) environ s senv evs w :
  environ "MQTT_PORT"%string = Some s ->
  py_int s = None ->
  program py_int environ senv evs w = (Raised invalid_literal, w) /\
  exit_status (fst (program py_int environ senv evs w)) <> 0%Z.
Proof.
  intros He Hi.
  assert (H : program py_int environ senv evs w = (Raised invalid_literal, w)).
  { unfold program, load_config, int_, bind, raise.
    rewrite He, Hi. reflexivity. }
  rewrite H. split; [reflexivity | discriminate].
Qed.

Lemma program_fails_on_bad_port_witness :
  program ascii_int environ_bad_port (mk_start_env None None)
          [Publish reading_A healthy] (fresh [])
  = (Raised invalid_literal, fresh []).
Proof.
  exact (proj1 (program_fails_on_bad_port ascii_int environ_bad_port
                  (mk_start_env None None) [Publish reading_A healthy]
                  (fresh []) eq_refl eq_refl)).
Defined.

(** Without [MQTT_PORT] in the environment the default 1883 is used and the
    script reaches the broker. *)
Example program_default_port :
  let r := program ascii_int environ_empty (mk_start_env None None)
                   [Connack 0; Publish reading_A healthy] (fresh []) in
  fst r = Returned tt /\
  option_map MQTT_PORT (cfg (snd r)) = Some 1883%Z /\
  DB_POOL (snd r) = Some 5 /\
  List.length (mqtt_data_log (snd r)) = 1.
Proof. repeat split; reflexivity. Qed.

(** * Further properties *)

(** ** Helpers *)

Lemma contains_unfold (n h : Py.str) :
  Py.contains n h =
  Py.startswith h n ||
  match h with [] => false | _ :: h' => Py.contains n h' end.
Proof. destruct h; reflexivity. Qed.

Lemma contains_app (n a b : Py.str) : Py.contains n (a ++ n ++ b) = true.
Proof.
  induction a as [|c a IH].
  - rewrite contains_unfold. cbn [app]. now rewrite startswith_app.
  - rewrite contains_unfold. cbn [app]. rewrite IH. apply orb_true_r.
Qed.

Lemma contains_inv (n h : Py.str) :
  Py.contains n h = true -> exists a b, h = a ++ n ++ b.
Proof.
  induction h as [|c h IH]; rewrite contains_unfold; intros H.
  - rewrite orb_false_r in H.
    destruct (startswith_inv _ _ H) as [x ->]. now exists [], x.
  - apply orb_true_iff in H as [H|H].
    + destruct (startswith_inv _ _ H) as [x ->]. now exists [], x.
    + destruct (IH H) as (a & b & ->). now exists (c :: a), b.
Qed.

Lemma decode_utf8_ascii (bs : Py.bytes) :
  Forall (fun b => (Byte.to_N b < 128)%N) bs ->
  Py.decode_utf8 bs = Some (map Byte.to_N bs).
Proof.
  induction 1 as [|b bs Hb _ IH]; [reflexivity|].
  cbn -[N.ltb Py.in_range].
  apply N.ltb_lt in Hb. now rewrite Hb, IH.
Qed.

(** [insert_data] only appends to the log: no record when it is left by an
    exception before the error is logged, one record otherwise. *)
Lemma insert_data_logged env d v t w :
  exists l,
    logged (snd (insert_data env d v t w)) = logged w ++ l /\
    (List.length l <= 1)%nat /\
    (fst (insert_data env d v t w) = Returned tt -> List.length l = 1%nat).
Proof.
  insert_cases env w;
    first [ solve [ eexists [_]; simpl; repeat split;
                    try lia; try reflexivity ]
          | solve [ exists []; simpl; rewrite app_nil_r; repeat split;
                    try lia; try reflexivity; intros; discriminate ] ].
Qed.

(** The handler leaves the configuration and the broker client alone. *)
Lemma on_message_frame env msg w :
  cfg (snd (on_message env msg w)) = cfg w /\
  client (snd (on_message env msg w)) = client w.
Proof.
  destruct (on_message_cases msg) as [H|[H [D|[v [D [E|[E1 E2]]]]]]].
  - rewrite on_message_foreign by exact H. now split.
  - rewrite on_message_undecodable by assumption. now split.
  - rewrite (on_message_empty_field env msg w H D E). now split.
  - rewrite (on_message_insert env msg w H D E1 E2).
    destruct (guarded_insert_data env
                (Py.slice_from (Py.len TOPIC_PREFIX) (topic msg)) v
                (topic msg) (topic msg) w) as (_ & -> & _ & _ & _ & ->).
    destruct (insert_data_frame env
                (Py.slice_from (Py.len TOPIC_PREFIX) (topic msg)) v
                (topic msg) w) as (Hc & Hcl & _).
    now split.
Qed.

(** One message moves the pool by at most one connection, downwards. *)
Lemma insert_data_pool_step env d v t w n :
  DB_POOL w = Some n ->
  DB_POOL (snd (insert_data env d v t w)) = Some n \/
  exists k, n = S k /\ DB_POOL (snd (insert_data env d v t w)) = Some k.
Proof.
  intros Hp.
  insert_cases env w; simpl in *; try discriminate;
    injection Hp as <-; eauto.
Qed.

Lemma on_message_pool_step env msg w n :
  DB_POOL w = Some n ->
  DB_POOL (handled w (msg, env)) = Some n \/
  exists k, n = S k /\ DB_POOL (handled w (msg, env)) = Some k.
Proof.
  intros Hp. unfold handled; simpl.
  destruct (on_message_cases msg) as [H|[H [D|[v [D [E|[E1 E2]]]]]]].
  - rewrite on_message_foreign by exact H. now left.
  - rewrite on_message_undecodable by assumption. now left.
  - rewrite (on_message_empty_field env msg w H D E). now left.
  - rewrite (on_message_insert env msg w H D E1 E2).
    destruct (guarded_insert_data env
                (Py.slice_from (Py.len TOPIC_PREFIX) (topic msg)) v
                (topic msg) (topic msg) w) as (_ & _ & -> & _).
    now apply insert_data_pool_step.
Qed.

(** One message adds at most one row, and a row it adds is well formed. *)
Lemma on_message_table env msg w :
  exists l,
    mqtt_data_log (handled w (msg, env)) = mqtt_data_log w ++ l /\
    (List.length l <= 1)%nat /\ Forall well_formed_row l.
Proof.
  unfold handled; simpl.
  destruct (on_message_cases msg) as [H|[H [D|[v [D [E|[E1 E2]]]]]]].
  - rewrite on_message_foreign by exact H.
    exists []; simpl; rewrite app_nil_r; auto.
  - rewrite on_message_undecodable by assumption.
    exists []; simpl; rewrite app_nil_r; auto.
  - rewrite (on_message_empty_field env msg w H D E).
    exists []; simpl; rewrite app_nil_r; auto.
  - rewrite (on_message_insert env msg w H D E1 E2).
    set (dev := Py.slice_from (Py.len TOPIC_PREFIX) (topic msg)) in *.
    destruct (guarded_insert_data env dev v (topic msg) (topic msg) w)
      as (_ & _ & _ & -> & _).
    destruct (insert_data_frame env dev v (topic msg) w)
      as (_ & _ & _ & [Ht|Ht]); rewrite Ht.
    + exists []; simpl; rewrite app_nil_r; auto.
    + exists [mk_row dev v (topic msg) (now env)].
      split; [reflexivity|]. split; [simpl; lia|].
      constructor; [|constructor].
      unfold well_formed_row; simpl. repeat split; try assumption.
      destruct (startswith_inv _ _ H) as [x Hx].
      subst dev. rewrite Hx at 2. now rewrite slice_from_app.
Qed.

(** With the configuration bound, a callback returns, keeps the
    configuration, and touches the broker client only to subscribe after an
    accepted connection. *)
Lemma dispatch_step c ev w :
  cfg w = Some c ->
  fst (dispatch ev w) = Returned tt /\
  cfg (snd (dispatch ev w)) = Some c /\
  client (snd (dispatch ev w)) =
  client w ++ (if accepted ev then [ClientSubscribe (MQTT_TOPIC c)] else []).
Proof.
  intros Hc. destruct ev as [rc|msg env]; simpl.
  - destruct w as [cf p tb lg ins cli]; simpl in Hc; subst cf.
    unfold on_connect. destruct (rc =? 0)%Z; simpl.
    + repeat split.
    + repeat split. now rewrite app_nil_r.
  - destruct (on_message_frame env msg w) as [H1 H2].
    rewrite on_message_returns, H1, H2, app_nil_r. auto.
Qed.

(** ** [on_connect] *)

(** X1.  With the configuration bound, [on_connect] returns for every result
    code, and it subscribes, once and with [MQTT_TOPIC] as configured,
    exactly when the code is 0; for any other code it logs the code at ERROR
    and changes nothing else. *)
Theorem on_connect_subscribes_iff_accepted c rc w :
  cfg w = Some c ->
  fst (on_connect rc w) = Returned tt /\
  (client (snd (on_connect rc w)) =
   client w ++ [ClientSubscribe (MQTT_TOPIC c)] <-> rc = 0%Z) /\
  (rc <> 0%Z ->
   snd (on_connect rc w) =
   set_logged (logged w ++ [(ERROR, LogConnectFailed rc)]) w).
Proof.
  intros Hc. destruct w as [cf p tb lg ins cli]; simpl in Hc; subst cf.
  unfold on_connect.
  destruct (Z.eqb_spec rc 0) as [E|E]; simpl.
  - repeat split; [intros _; exact E | contradiction].
  - repeat split; [|contradiction].
    intros H. apply (f_equal (@List.length _)) in H.
    rewrite length_app in H; simpl in H. lia.
Qed.

Lemma on_connect_subscribes_iff_accepted_witness :
  client (snd (on_connect 0 ready)) =
  [ClientSubscribe (Py.lit "roverCommsLog/#")] /\
  logged (snd (on_connect 5 ready)) = [(ERROR, LogConnectFailed 5)].
Proof.
  split.
  - exact (proj2 (proj1 (proj2 (on_connect_subscribes_iff_accepted
                                  0 ready eq_refl))) eq_refl).
  - assert (H : 5%Z <> 0%Z) by discriminate.
    exact (f_equal logged
             (proj2 (proj2 (on_connect_subscribes_iff_accepted
                              5 ready eq_refl)) H)).
Defined.

(** ** The session loop *)

Lemma loop_forever_run c evs : forall w,
  cfg w = Some c ->
  fst (loop_forever evs w) = Returned tt /\
  cfg (snd (loop_forever evs w)) = Some c /\
  client (snd (loop_forever evs w)) =
  client w ++ map (fun _ => ClientSubscribe (MQTT_TOPIC c))
                  (filter accepted evs).
Proof.
  induction evs as [|ev evs IH]; intros w Hc; simpl.
  - now rewrite app_nil_r.
  - unfold bind.
    destruct (dispatch_step ev w Hc) as (Hr & Hc1 & Hcl).
    destruct (dispatch ev w) as [r w1]; simpl in *; subst r.
    destruct (IH w1 Hc1) as (Hr2 & Hc2 & Hcl2).
    rewrite Hr2, Hc2, Hcl2, Hcl.
    repeat split. rewrite <- app_assoc. f_equal.
    destruct (accepted ev); reflexivity.
Qed.

(** X2.  With the configuration bound, [loop_forever] returns on every
    sequence of events, keeps the configuration, and the calls it makes on
    the broker client are exactly one subscription to [MQTT_TOPIC] per
    accepted connection, in order: refused connections and published
    messages never touch the client. *)
Theorem loop_forever_subscribes_per_connection c evs w :
  cfg w = Some c ->
  fst (loop_forever evs w) = Returned tt /\
  cfg (snd (loop_forever evs w)) = Some c /\
  client (snd (loop_forever evs w)) =
  client w ++ map (fun _ => ClientSubscribe (MQTT_TOPIC c))
                  (filter accepted evs).
Proof.
  apply loop_forever_run.
Qed.

Lemma loop_forever_subscribes_per_connection_witness :
  client (snd (loop_forever
                 [Connack 0; Publish reading_A healthy; Connack 5;
                  Connack 0] ready))
  = [ClientSubscribe (Py.lit "roverCommsLog/#");
     ClientSubscribe (Py.lit "roverCommsLog/#")].
Proof.
  exact (proj2 (proj2 (loop_forever_subscribes_per_connection
                         [Connack 0; Publish reading_A healthy; Connack 5;
                          Connack 0] ready eq_refl))).
Defined.

(** ** [main] *)

(** X3.  When the pool is built and the broker connection is made, [main] is
    [loop_forever] run from the started world: two INFO records of the pool,
    five idle connections, the client created and connected with keepalive
    60 to the configured host and port. *)
Theorem main_runs_loop senv evs c w :
  cfg w = Some c ->
  pool_r senv = None ->
  connect_r senv = None ->
  main senv evs w = loop_forever evs (started c w).
Proof.
  intros Hc Hp Hn.
  destruct (loop_forever_run evs (started c w) eq_refl) as (Hr & _).
  destruct w as [cf p tb lg ins cli]; simpl in Hc; subst cf.
  unfold main, setup_db_pool, try_except, globals, logger, outcome,
    client_call_, bind, modify, ret; simpl.
  rewrite Hp, Hn; simpl.
  unfold started in *; simpl in *.
  rewrite <- !app_assoc; simpl.
  destruct (loop_forever evs _) as [r w1]; simpl in *; subst r.
  reflexivity.
Qed.

Lemma main_runs_loop_witness :
  main all_up [Connack 0; Publish reading_A healthy] ready =
  loop_forever [Connack 0; Publish reading_A healthy]
               (started default_config ready).
Proof.
  exact (main_runs_loop all_up [Connack 0; Publish reading_A healthy]
                        ready eq_refl eq_refl eq_refl).
Defined.

(** X4.  When the broker cannot be reached, [main] logs the failure at ERROR
    and returns: the process ends with status 0, the loop is never entered,
    nothing is subscribed and no message is handled, whatever would have been
    delivered. *)
Theorem main_broker_unreachable senv evs c e w :
  cfg w = Some c ->
  pool_r senv = None ->
  connect_r senv = Some e ->
  main senv evs w = (Returned tt, unreachable c e w) /\
  exit_status (fst (main senv evs w)) = 0%Z.
Proof.
  intros Hc Hp Hn.
  assert (H : main senv evs w = (Returned tt, unreachable c e w)).
  { destruct w as [cf p tb lg ins cli]; simpl in Hc; subst cf.
    unfold main, setup_db_pool, try_except, globals, logger, outcome,
      client_call_, bind, modify, ret, raise; simpl.
    rewrite Hp, Hn; simpl.
    unfold unreachable, set_logged; simpl.
    now rewrite <- !app_assoc. }
  now rewrite H.
Qed.

Lemma main_broker_unreachable_witness :
  exit_status (fst (main broker_down [Publish reading_A healthy] ready))
  = 0%Z.
Proof.
  exact (proj2 (main_broker_unreachable broker_down
                  [Publish reading_A healthy] ready
                  eq_refl eq_refl eq_refl)).
Defined.

(** X5.  With the configuration bound, [main] calls [exit] exactly when the
    pool could not be built, always with status 1, and no exception leaves
    [main], whatever the broker does and whatever events are delivered. *)
Theorem main_exit_status senv evs c w :
  cfg w = Some c ->
  (fst (main senv evs w) = SystemExit 1 <-> pool_r senv <> None) /\
  (forall k, fst (main senv evs w) = SystemExit k -> k = 1%Z) /\
  (forall e, fst (main senv evs w) <> Raised e).
Proof.
  intros Hc.
  assert (H : (pool_r senv <> None /\ fst (main senv evs w) = SystemExit 1)
              \/ (pool_r senv = None /\ fst (main senv evs w) = Returned tt)).
  { destruct (pool_r senv) as [e|] eqn:Hp.
    - left. split; [discriminate|].
      destruct w as [cf p tb lg ins cli]; simpl in Hc; subst cf.
      unfold main, setup_db_pool, try_except, globals, logger, outcome,
        bind, modify, raise, sys_exit; simpl.
      now rewrite Hp.
    - right. split; [reflexivity|].
      destruct (connect_r senv) as [e|] eqn:Hn.
      + destruct w as [cf p tb lg ins cli]; simpl in Hc; subst cf.
        unfold main, setup_db_pool, try_except, globals, logger, outcome,
          client_call_, bind, modify, ret, raise; simpl.
        now rewrite Hp, Hn.
      + destruct (loop_forever_run evs (started c w) eq_refl) as (Hr & _).
        destruct w as [cf p tb lg ins cli]; simpl in Hc; subst cf.
        unfold main, setup_db_pool, try_except, globals, logger, outcome,
          client_call_, bind, modify, ret; simpl.
        rewrite Hp, Hn; simpl.
        unfold started in *; simpl in *.
        rewrite <- !app_assoc; simpl.
        destruct (loop_forever evs _) as [r w1]; simpl in *; subst r.
        reflexivity. }
  destruct H as [[Hp Hr]|[Hp Hr]]; rewrite Hr; repeat split.
  - intros _. exact Hp.
  - intros k Hk. now injection Hk as <-.
  - discriminate.
  - discriminate.
  - intros Hn. now rewrite Hp in Hn.
  - discriminate.
  - discriminate.
Qed.

Lemma main_exit_status_witness :
  fst (main pool_down [Connack 0; Publish reading_A lost_env] ready)
  = SystemExit 1 /\
  forall e,
    fst (main all_up [Connack 0; Publish reading_A lost_env] ready)
    <> Raised e.
Proof.
  split.
  - apply (proj1 (main_exit_status pool_down
                    [Connack 0; Publish reading_A lost_env] ready eq_refl)).
    discriminate.
  - exact (proj2 (proj2 (main_exit_status all_up
                    [Connack 0; Publish reading_A lost_env] ready eq_refl))).
Defined.

(** ** More on [insert_data] *)

(** X6.  Given an idle connection, the table gains the row exactly when
    [get_connection], [cursor], [execute] and [commit] all return, and is
    unchanged otherwise; what happens afterwards (a failing cleanup) does not
    undo a committed row, and nothing is written without a commit. *)
Theorem insert_data_commits_or_nothing env d v t w n :
  DB_POOL w = Some (S n) ->
  mqtt_data_log (snd (insert_data env d v t w)) =
  match get_connection_r env, cursor_r env, execute_r env, commit_r env with
  | None, None, None, None => mqtt_data_log w ++ [mk_row d v t (now env)]
  | _, _, _, _ => mqtt_data_log w
  end.
Proof.
  intros Hp.
  insert_cases env w; simpl in *; try discriminate; reflexivity.
Qed.

Lemma insert_data_commits_or_nothing_witness :
  mqtt_data_log
    (snd (insert_data (mk_db_env None None None None None true
                                 (Some connection_lost) None 1000)
                      (Py.lit "rover_A") (Py.lit "24.5")
                      (Py.lit "roverCommsLog/rover_A") ready))
  = [mk_row (Py.lit "rover_A") (Py.lit "24.5")
            (Py.lit "roverCommsLog/rover_A") 1000].
Proof.
  exact (insert_data_commits_or_nothing
           (mk_db_env None None None None None true
                      (Some connection_lost) None 1000)
           (Py.lit "rover_A") (Py.lit "24.5")
           (Py.lit "roverCommsLog/rover_A") ready eq_refl).
Defined.

(** X7.  Called while [DB_POOL] is still [None], [insert_data] returns
    normally: the [AttributeError] is logged as a generic insertion error,
    nothing is rolled back or closed, and the table is untouched. *)
Theorem insert_data_without_pool env d v t w :
  DB_POOL w = None ->
  insert_data env d v t w =
  (Returned tt,
   set_inserts (inserts w ++ [(d, v, t)])
     (set_logged
        (logged w ++ [(ERROR, LogInsertionError none_has_no_attribute)]) w)).
Proof.
  intros Hp.
  destruct w as [cf p tb lg ins cli]; simpl in Hp; subst p.
  reflexivity.
Qed.

Lemma insert_data_without_pool_witness :
  fst (insert_data healthy (Py.lit "rover_A") (Py.lit "24.5")
                   (Py.lit "roverCommsLog/rover_A") configured)
  = Returned tt.
Proof.
  exact (f_equal fst
           (insert_data_without_pool healthy (Py.lit "rover_A")
              (Py.lit "24.5") (Py.lit "roverCommsLog/rover_A")
              configured eq_refl)).
Defined.

(** X8.  With no idle connection left, [insert_data] returns normally after
    logging the pool error as a generic insertion error; the reading is
    dropped, the pool stays empty, and the database is not contacted. *)
Theorem insert_data_pool_exhausted env d v t w :
  DB_POOL w = Some 0 ->
  insert_data env d v t w =
  (Returned tt,
   set_inserts (inserts w ++ [(d, v, t)])
     (set_logged (logged w ++ [(ERROR, LogInsertionError pool_exhausted)])
                 w)).
Proof.
  intros Hp.
  destruct w as [cf p tb lg ins cli]; simpl in Hp; subst p.
  reflexivity.
Qed.

Lemma insert_data_pool_exhausted_witness :
  mqtt_data_log
    (snd (insert_data healthy (Py.lit "rover_A") (Py.lit "24.5")
                      (Py.lit "roverCommsLog/rover_A") drained)) = [] /\
  DB_POOL
    (snd (insert_data healthy (Py.lit "rover_A") (Py.lit "24.5")
                      (Py.lit "roverCommsLog/rover_A") drained)) = Some 0.
Proof.
  pose proof (insert_data_pool_exhausted healthy (Py.lit "rover_A")
                (Py.lit "24.5") (Py.lit "roverCommsLog/rover_A")
                drained eq_refl) as E.
  split.
  - exact (f_equal (fun r => mqtt_data_log (snd r)) E).
  - exact (f_equal (fun r => DB_POOL (snd r)) E).
Defined.

(** X9.  When a statement is refused on a connection that stays usable, the
    record logged is the missing-schema message exactly when the text of the
    exception contains ['mqtt_data_log' doesn't exist] or [Unknown column]
    somewhere; otherwise the exception itself is logged. *)
Theorem insert_data_classifies_by_text env e d v t w n :
  DB_POOL w = Some (S n) ->
  get_connection_r env = None -> cursor_r env = None ->
  execute_r env = Some e -> rollback_r env = None ->
  is_connected_r env = true ->
  cursor_close_r env = None -> conn_close_r env = None ->
  (logged (snd (insert_data env d v t w)) =
   logged w ++ [(ERROR, LogSchemaMissing)]
   <->
   exists a b, exn_str e = a ++ table_missing_text ++ b \/
               exn_str e = a ++ Py.lit "Unknown column" ++ b) /\
  (logged (snd (insert_data env d v t w)) =
   logged w ++ [(ERROR, LogSchemaMissing)] \/
   logged (snd (insert_data env d v t w)) =
   logged w ++ [(ERROR, LogInsertionError e)]).
Proof.
  intros Hp H1 H2 H3 H4 H5 H6 H7.
  rewrite (insert_data_statement_refused env d v t w Hp H1 H2 H3 H4 H5 H6 H7).
  cbn [snd logged].
  destruct (is_schema_error (exn_str e)) eqn:E; (split; [split|]).
  - intros _. unfold is_schema_error in E.
    apply orb_true_iff in E as [E|E];
      destruct (contains_inv _ _ E) as (a & b & Hab); exists a, b; auto.
  - reflexivity.
  - now left.
  - intros H. apply app_inv_head in H. discriminate.
  - intros (a & b & [Hab|Hab]); exfalso;
      unfold is_schema_error in E; rewrite Hab in E.
    + rewrite (contains_app table_missing_text a b) in E. discriminate.
    + rewrite (contains_app (Py.lit "Unknown column") a b) in E.
      rewrite orb_true_r in E. discriminate.
  - now right.
Qed.

Lemma insert_data_classifies_by_text_witness :
  logged (snd (insert_data (refused_env unknown_column) (Py.lit "rover_A")
                           (Py.lit "24.5") (Py.lit "roverCommsLog/rover_A")
                           ready))
  = [(ERROR, LogSchemaMissing)].
Proof.
  apply (proj1 (insert_data_classifies_by_text
                  (refused_env unknown_column) (Py.lit "rover_A")
                  (Py.lit "24.5") (Py.lit "roverCommsLog/rover_A") ready
                  eq_refl eq_refl eq_refl eq_refl eq_refl eq_refl eq_refl
                  eq_refl)).
  exists (Py.lit "1054 (42S22): "), (Py.lit " 'device_id' in 'field list'").
  right. reflexivity.
Defined.

(** ** Invariants of the message stream *)

(** X10.  Over any sequence of delivered messages the pool never grows and
    gives up at most one connection per message: from [n] idle connections
    it ends with some [m <= n], with [n - m] no more than the number of
    messages. *)
Theorem pool_only_shrinks (ds : list (message * db_env)) : forall w n,
  DB_POOL w = Some n ->
  exists m, DB_POOL (fold_left handled ds w) = Some m /\
            (m <= n)%nat /\ (n <= m + List.length ds)%nat.
Proof.
  induction ds as [|[msg env] ds IH]; intros w n Hp; simpl.
  - exists n. repeat split; [exact Hp | lia | lia].
  - destruct (on_message_pool_step env msg w Hp) as [H|(k & -> & H)].
    + destruct (IH _ _ H) as (m & Hm & ? & ?).
      exists m. repeat split; [exact Hm | lia | lia].
    + destruct (IH _ _ H) as (m & Hm & ? & ?).
      exists m. repeat split; [exact Hm | lia | lia].
Qed.

Lemma pool_only_shrinks_witness :
  exists m,
    DB_POOL (fold_left handled
               [(reading_A, lost_env); (reading_A, healthy)] ready) = Some m /\
    (m <= 5)%nat /\ (5 <= m + 2)%nat.
Proof.
  exact (pool_only_shrinks [(reading_A, lost_env); (reading_A, healthy)]
                           ready eq_refl).
Defined.

(** X11.  Once the pool is empty it stays empty and the table never changes
    again: nothing in the handler gives a connection back or rebuilds the
    pool, so every later reading is dropped even when the database works. *)
Theorem exhausted_pool_is_permanent (ds : list (message * db_env)) : forall w,
  DB_POOL w = Some 0 ->
  DB_POOL (fold_left handled ds w) = Some 0 /\
  mqtt_data_log (fold_left handled ds w) = mqtt_data_log w.
Proof.
  induction ds as [|[msg env] ds IH]; intros w Hp; simpl; [now split|].
  assert (H : DB_POOL (handled w (msg, env)) = Some 0 /\
              mqtt_data_log (handled w (msg, env)) = mqtt_data_log w).
  { unfold handled; simpl.
    destruct (on_message_cases msg) as [H|[H [D|[v [D [E|[E1 E2]]]]]]].
    - rewrite on_message_foreign by exact H. now split.
    - rewrite on_message_undecodable by assumption. now split.
    - rewrite (on_message_empty_field env msg w H D E). now split.
    - rewrite (on_message_insert env msg w H D E1 E2).
      destruct w as [cf p tb lg ins cli]; simpl in Hp; subst p.
      split; reflexivity. }
  destruct H as [H1 H2].
  destruct (IH _ H1) as [H3 H4].
  split; [exact H3 | now rewrite H4].
Qed.

Lemma exhausted_pool_is_permanent_witness :
  mqtt_data_log (fold_left handled
                   [(reading_A, healthy); (reading_A, healthy)] drained) = [].
Proof.
  exact (proj2 (exhausted_pool_is_permanent
                  [(reading_A, healthy); (reading_A, healthy)]
                  drained eq_refl)).
Defined.

(** X12.  The table is append-only under the handler: after any sequence of
    delivered messages the old rows are still there, in order, followed by at
    most one new row per message; and every new row has a non-empty device
    id, a non-empty value and a topic equal to the prefix followed by the
    device id. *)
Theorem rows_appended_are_well_formed (ds : list (message * db_env)) w :
  exists l,
    mqtt_data_log (fold_left handled ds w) = mqtt_data_log w ++ l /\
    (List.length l <= List.length ds)%nat /\
    Forall well_formed_row l.
Proof.
  revert w; induction ds as [|[msg env] ds IH]; intros w; simpl.
  - exists []. rewrite app_nil_r. repeat split; [simpl; lia | constructor].
  - destruct (on_message_table env msg w) as (l1 & H1 & L1 & F1).
    destruct (IH (handled w (msg, env))) as (l2 & H2 & L2 & F2).
    exists (l1 ++ l2). rewrite H2, H1, app_assoc.
    repeat split.
    + rewrite length_app. lia.
    + apply Forall_app. now split.
Qed.

(** X13.  Every delivered message leaves a trace: the handler appends one or
    two records to the log and never drops or rewrites an earlier one (two
    when [insert_data] logged its error and then raised during cleanup). *)
Theorem on_message_logs_once_or_twice env msg w :
  exists l,
    logged (snd (on_message env msg w)) = logged w ++ l /\
    (1 <= List.length l <= 2)%nat.
Proof.
  destruct (on_message_cases msg) as [H|[H [D|[v [D [E|[E1 E2]]]]]]].
  - rewrite on_message_foreign by exact H.
    eexists [_]; split; [reflexivity | simpl; lia].
  - rewrite on_message_undecodable by assumption.
    eexists [_]; split; [reflexivity | simpl; lia].
  - rewrite (on_message_empty_field env msg w H D E).
    eexists [_]; split; [reflexivity | simpl; lia].
  - rewrite (on_message_insert env msg w H D E1 E2).
    set (dev := Py.slice_from (Py.len TOPIC_PREFIX) (topic msg)).
    destruct (insert_data_logged env dev v (topic msg) w)
      as (l & Hl & Hle & Hret).
    destruct (insert_data_no_exit env dev v (topic msg) w) as [Hr|[e Hr]];
      unfold try_except;
      destruct (insert_data env dev v (topic msg) w) as [r w1];
      simpl in *; subst r.
    + exists l. split; [exact Hl|]. specialize (Hret eq_refl). lia.
    + exists (l ++ [(ERROR, LogProcessingError (topic msg) e)]).
      unfold logger, modify, set_logged; simpl.
      rewrite Hl, <- app_assoc. split; [reflexivity|].
      rewrite length_app; simpl. lia.
Qed.

(** X14.  A reading whose row is committed logs its DEBUG record, which the
    console (level INFO) does not show.  The console stays silent for it
    unless cleanup of a connection that still reports itself connected
    raises, in [cursor.close()] or in [conn.close()]: then the handler logs
    that exception at ERROR although the row is stored. *)
Theorem stored_reading_console env msg v w n :
  Py.startswith (topic msg) TOPIC_PREFIX = true ->
  Py.slice_from (Py.len TOPIC_PREFIX) (topic msg) <> [] ->
  Py.decode_utf8 (payload msg) = Some v -> v <> [] ->
  DB_POOL w = Some (S n) ->
  get_connection_r env = None -> cursor_r env = None ->
  execute_r env = None -> commit_r env = None ->
  let dev := Py.slice_from (Py.len TOPIC_PREFIX) (topic msg) in
  let w' := snd (on_message env msg w) in
  mqtt_data_log w' = mqtt_data_log w ++ [mk_row dev v (topic msg) (now env)] /\
  logged w' =
  logged w ++ (DEBUG, LogInserted dev v (topic msg)) ::
  match cleanup_error env with
  | Some e => [(ERROR, LogProcessingError (topic msg) e)]
  | None => []
  end /\
  console w' =
  console w ++
  match cleanup_error env with
  | Some e => [(ERROR, LogProcessingError (topic msg) e)]
  | None => []
  end.
Proof.
  intros Hs Hd D Hv Hp H1 H2 H3 H4 dev w'; subst w'.
  rewrite (on_message_insert env msg w Hs D Hd Hv). fold dev.
  clear Hs Hd D Hv. clearbody dev.
  unfold try_except, console, cleanup_error.
  destruct env as [g c e cm r ic cc cl nw];
    destruct w as [cf p tb lg ins cli]; cbn in Hp, H1, H2, H3, H4; subst.
  unfold_insert; cbn.
  destruct ic; [destruct cc; [|destruct cl]|]; cbn;
    rewrite ?filter_app; cbn; rewrite ?app_nil_r; repeat split;
    now rewrite <- app_assoc.
Qed.

Lemma stored_reading_console_witness :
  console (snd (on_message healthy reading_A ready)) = [] /\
  console
    (snd (on_message (mk_db_env None None None None None true
                                (Some connection_lost) None 1000)
                     reading_A ready))
  = [(ERROR, LogProcessingError (topic reading_A) connection_lost)].
Proof.
  assert (H1 : Py.slice_from (Py.len TOPIC_PREFIX) (topic reading_A) <> [])
    by discriminate.
  assert (H2 : Py.lit "24.5" <> []) by discriminate.
  split.
  - exact (proj2 (proj2 (stored_reading_console healthy reading_A ready
                           eq_refl H1 eq_refl H2 eq_refl eq_refl eq_refl
                           eq_refl eq_refl))).
  - exact (proj2 (proj2 (stored_reading_console
                           (mk_db_env None None None None None true
                                      (Some connection_lost) None 1000)
                           reading_A ready
                           eq_refl H1 eq_refl H2 eq_refl eq_refl eq_refl
                           eq_refl eq_refl))).
Defined.

(** ** Payloads *)

(** X15.  A non-empty payload made of ASCII bytes on a well-formed topic is
    handed to [insert_data] byte for byte: the value is the sequence of the
    payload's byte values, spaces and all. *)
Theorem ascii_payload_passed_verbatim env msg w :
  Py.startswith (topic msg) TOPIC_PREFIX = true ->
  Py.slice_from (Py.len TOPIC_PREFIX) (topic msg) <> [] ->
  payload msg <> [] ->
  Forall (fun b => (Byte.to_N b < 128)%N) (payload msg) ->
  new_inserts w (snd (on_message env msg w))
    [(Py.slice_from (Py.len TOPIC_PREFIX) (topic msg),
      map Byte.to_N (payload msg), topic msg)].
Proof.
  intros Hs Hd Hne Ha.
  assert (Hv : map Byte.to_N (payload msg) <> []).
  { destruct (payload msg); [contradiction | discriminate]. }
  rewrite (on_message_insert env msg w Hs (decode_utf8_ascii Ha) Hd Hv).
  set (dev := Py.slice_from (Py.len TOPIC_PREFIX) (topic msg)).
  destruct (guarded_insert_data env dev (map Byte.to_N (payload msg))
              (topic msg) (topic msg) w) as (_ & _ & _ & _ & Hi & _).
  unfold new_inserts. rewrite Hi. apply insert_data_frame.
Qed.

Lemma ascii_payload_passed_verbatim_witness :
  inserts (snd (on_message healthy
                  (mk_message (Py.lit "roverCommsLog/rover_A")
                              (Py.blit " 24.5 ")) ready))
  = [(Py.lit "rover_A", Py.lit " 24.5 ", Py.lit "roverCommsLog/rover_A")].
Proof.
  assert (H1 : Py.slice_from (Py.len TOPIC_PREFIX)
                 (Py.lit "roverCommsLog/rover_A") <> []) by discriminate.
  assert (H2 : Py.blit " 24.5 " <> []) by discriminate.
  assert (H3 : Forall (fun b => (Byte.to_N b < 128)%N) (Py.blit " 24.5 ")).
  { repeat constructor. }
  exact (ascii_payload_passed_verbatim healthy
           (mk_message (Py.lit "roverCommsLog/rover_A") (Py.blit " 24.5 "))
           ready eq_refl H1 H2 H3).
Defined.

(** X16.  On a topic that passes the filter with a non-empty device id, the
    handler discards the message with the empty-field warning exactly when
    the payload has no bytes: a payload with any byte in it is either stored
    or attempted, or reported as an error, never dropped as empty. *)
Theorem empty_warning_iff_no_bytes env msg w :
  Py.startswith (topic msg) TOPIC_PREFIX = true ->
  Py.slice_from (Py.len TOPIC_PREFIX) (topic msg) <> [] ->
  (on_message env msg w =
   (Returned tt,
    set_logged (logged w ++ [(WARNING, LogSkipEmpty (topic msg))]) w)
   <-> payload msg = []).
Proof.
  intros Hs Hd. split.
  - intros Hw.
    destruct (Py.decode_utf8 (payload msg)) as [[|c v]|] eqn:D.
    + now apply decode_utf8_empty.
    + exfalso.
      assert (Hv : c :: v <> []) by discriminate.
      pose proof (f_equal (fun r => inserts (snd r)) Hw) as Hi.
      simpl in Hi.
      rewrite (on_message_insert env msg w Hs D Hd Hv) in Hi.
      set (dev := Py.slice_from (Py.len TOPIC_PREFIX) (topic msg)) in *.
      destruct (guarded_insert_data env dev (c :: v) (topic msg)
                  (topic msg) w) as (_ & _ & _ & _ & Hg & _).
      rewrite Hg in Hi.
      destruct (insert_data_frame env dev (c :: v) (topic msg) w)
        as (_ & _ & Hf & _).
      rewrite Hf in Hi.
      apply (f_equal (@List.length _)) in Hi.
      rewrite length_app in Hi; simpl in Hi. lia.
    + exfalso.
      rewrite (on_message_undecodable env msg w Hs D) in Hw.
      pose proof (f_equal (fun r => logged (snd r)) Hw) as Hl.
      simpl in Hl. apply app_inv_head in Hl. discriminate.
  - intros He.
    assert (D : Py.decode_utf8 (payload msg) = Some [])
      by now apply decode_utf8_empty.
    exact (on_message_empty_field env msg w Hs D (or_intror eq_refl)).
Qed.

Lemma empty_warning_iff_no_bytes_witness :
  on_message healthy empty_B ready =
  (Returned tt,
   set_logged
     (logged ready ++ [(WARNING, LogSkipEmpty (topic empty_B))]) ready).
Proof.
  assert (H1 : Py.slice_from (Py.len TOPIC_PREFIX) (topic empty_B) <> [])
    by discriminate.
  exact (proj2 (empty_warning_iff_no_bytes healthy empty_B ready eq_refl H1)
               eq_refl).
Defined.

(** ** Configuration *)

(** X17.  Reading the configuration fails only through [MQTT_PORT]: it
    returns exactly when [MQTT_PORT] is unset or accepted by [int], whatever
    the other six variables hold; it then binds the configuration and changes
    nothing else, the port being the parsed integer as it is (no range
    check) or 1883 when unset. *)
Theorem load_config_fails_only_on_port
    (py_int : Py.str -> option Z) environ w :
  (fst (load_config py_int environ w) = Returned tt <->
   forall s, environ "MQTT_PORT"%string = Some s -> py_int s <> None) /\
  (fst (load_config py_int environ w) = Returned tt ->
   exists c,
     snd (load_config py_int environ w) = set_cfg (Some c) w /\
     Some (MQTT_PORT c) =
     match environ "MQTT_PORT"%string with
     | Some s => py_int s
     | None => Some 1883%Z
     end /\
     MQTT_TOPIC c = getenv environ "MQTT_TOPIC" "roverCommsLog/#" /\
     MQTT_HOST c = getenv environ "MQTT_HOST" "SITH-MQTT-Broker").
Proof.
  unfold load_config, int_, bind, ret, raise, modify.
  destruct (environ "MQTT_PORT"%string) as [s|].
  - destruct (py_int s) as [z|] eqn:E; simpl.
    + split; [split|].
      * intros _ s' Hs'. injection Hs' as <-. rewrite E. discriminate.
      * reflexivity.
      * intros _. eexists. repeat split.
    + split; [split|].
      * discriminate.
      * intros H. exfalso. exact (H s eq_refl E).
      * discriminate.
  - simpl. split; [split|].
    + intros _ s' Hs'. discriminate.
    + reflexivity.
    + intros _. eexists. repeat split.
Qed.

Lemma load_config_fails_only_on_port_witness :
  exists c,
    snd (load_config ascii_int environ_port_8883 (fresh [])) =
    set_cfg (Some c) (fresh []) /\
    Some (MQTT_PORT c) = Some 8883%Z.
Proof.
  destruct (proj2 (load_config_fails_only_on_port ascii_int
                     environ_port_8883 (fresh [])) eq_refl)
    as (c & Hc & Hp & _).
  exists c. split; [exact Hc | exact Hp].
Defined.
